(** * Credit Verification Portal: a shallow embedding of the form page,
      the document drop zone and the voice-input adapter.

    Sources embedded here:
    - [CreditVerificationForm] (the page component): [FormData],
      [FileUploads], [handleInputChange], [handleFileUpload],
      [handleSpeechResult], [validateForm], [handleSubmit] and the
      per-field [onChange] / [onResult] / [onToggle] handlers of its JSX.
    - [FileUpload] (the drop zone): [handleDrop], [handleInputChange],
      [handleRemoveFile], [formatFileSize].
    - [SpeechRecognition] (the adapter): its two effects and the
      [onresult] / [onerror] / [onend] / [onstart] handlers.

    Conventions.  A React state setter is an update of the corresponding
    record field; every handler returns the new state together with the
    list of effects it issued, in program order (toasts, the simulated
    call, commands sent to the browser's recognition session, callbacks
    to the owner).  JS strings are modelled by [string]; [toUpperCase]
    is modelled on the ASCII letters, see [Js.toUpperCase]. *)

From Stdlib Require Import ZArith Ascii String List Lia.
From stdpp Require Import base decidable option strings list gmap pretty.

Local Open Scope string_scope.
Local Open Scope list_scope.

(** ** Strings *)

Module Js.

(** [c] is one of '0'..'9': the complement of the class [\D]. *)
Definition is_digit (c : ascii) : bool :=
  let n := nat_of_ascii c in (48 <=? n)%nat && (n <=? 57)%nat.

Definition is_lower (c : ascii) : bool :=
  let n := nat_of_ascii c in (97 <=? n)%nat && (n <=? 122)%nat.

Definition upper_ascii (c : ascii) : ascii :=
  if is_lower c then ascii_of_nat (nat_of_ascii c - 32) else c.

(** [s.toUpperCase()], on strings of ASCII characters: the letters
    'a'..'z' are mapped to 'A'..'Z' and nothing else changes.  On other
    characters the built-in function also maps the non-ASCII letters
    and can lengthen the string; nothing below relies on how such
    characters are mapped, nor on the length of the result. *)
Fixpoint toUpperCase (s : string) : string :=
  match s with
  | EmptyString => EmptyString
  | String c r => String (upper_ascii c) (toUpperCase r)
  end.

(** [s.replace(/\D/g, '')] *)
Fixpoint stripNonDigits (s : string) : string :=
  match s with
  | EmptyString => EmptyString
  | String c r =>
      if is_digit c then String c (stripNonDigits r) else stripNonDigits r
  end.

(** [!v] for [v] the result of a property read on an object of
    strings: [undefined] and the empty string are falsy. *)
Definition not_str (v : option string) : bool :=
  match v with
  | None => true
  | Some s => bool_decide (s = "")
  end.

(** [!v] for [v : T | null] with [T] an object type. *)
Definition not_obj {T} (v : option T) : bool :=
  match v with
  | None => true
  | Some _ => false
  end.

End Js.

(** ** Data model of the page *)

(** A browser [File]: opaque contents, a name and a byte size. *)
Record File := mkFile { file_name : string; file_size : Z }.

(** [interface FileUploads]: four slots of type [File | null]. *)
Record FileUploads := mkFileUploads {
  aadharCard : option File;
  panCard : option File;
  salarySlips : option File;
  bankStatement : option File;
}.

(** [keyof FileUploads] *)
Inductive FileSlot := AadharCard | PanCard | SalarySlips | BankStatement.

Definition get_file (fs : FileUploads) (k : FileSlot) : option File :=
  match k with
  | AadharCard => aadharCard fs
  | PanCard => panCard fs
  | SalarySlips => salarySlips fs
  | BankStatement => bankStatement fs
  end.

(** [{ ...prev, [field]: file }] *)
Definition set_file (fs : FileUploads) (k : FileSlot) (v : option File)
  : FileUploads :=
  match k with
  | AadharCard => mkFileUploads v (panCard fs) (salarySlips fs) (bankStatement fs)
  | PanCard => mkFileUploads (aadharCard fs) v (salarySlips fs) (bankStatement fs)
  | SalarySlips => mkFileUploads (aadharCard fs) (panCard fs) v (bankStatement fs)
  | BankStatement => mkFileUploads (aadharCard fs) (panCard fs) (salarySlips fs) v
  end.

Definition slot_name (k : FileSlot) : string :=
  match k with
  | AadharCard => "aadharCard"
  | PanCard => "panCard"
  | SalarySlips => "salarySlips"
  | BankStatement => "bankStatement"
  end.

(** A toast: title, description and whether its variant is "destructive". *)
Record Toast := mkToast {
  title : string;
  description : string;
  destructive : bool;
}.

(** What a page handler does besides updating state. *)
Inductive Effect :=
| ShowToast (t : Toast)
| SimulatedCall (ms : Z).   (* await new Promise(r => setTimeout(r, ms)) *)

(** The state owned by [CreditVerificationForm].  [formData] is the JS
    object updated through computed keys, hence a finite map. *)
Record Page := mkPage {
  formData : gmap string string;
  files : FileUploads;
  currentSpeechField : option string;
  isSubmitting : bool;
}.

Definition requiredFields : list string :=
  [ "fullName"; "aadharNumber"; "panNumber"; "dateOfBirth"; "annualIncome";
    "employmentStatus"; "monthlyDebtPayments"; "mobileNumber"; "emailAddress";
    "streetAddress"; "city"; "state"; "pinCode" ].

Definition requiredFiles : list FileSlot :=
  [ AadharCard; PanCard; SalarySlips; BankStatement ].

(** The object literal used both as initial state and by the reset. *)
Definition emptyFormData : gmap string string :=
  list_to_map ((fun k => (k, "")) <$> requiredFields).

Definition emptyFiles : FileUploads := mkFileUploads None None None None.

Definition initialPage : Page := mkPage emptyFormData emptyFiles None false.

Definition with_formData (p : Page) (fd : gmap string string) : Page :=
  mkPage fd (files p) (currentSpeechField p) (isSubmitting p).
Definition with_files (p : Page) (fs : FileUploads) : Page :=
  mkPage (formData p) fs (currentSpeechField p) (isSubmitting p).
Definition with_currentSpeechField (p : Page) (c : option string) : Page :=
  mkPage (formData p) (files p) c (isSubmitting p).
Definition with_isSubmitting (p : Page) (b : bool) : Page :=
  mkPage (formData p) (files p) (currentSpeechField p) b.

(** ** Handlers of the page *)

Definition handleInputChange (field value : string) (p : Page) : Page :=
  with_formData p (<[field := value]> (formData p)).

Definition toast_fileUploaded (field : FileSlot) (file : File) : Toast :=
  mkToast "File uploaded successfully"
    (file_name file +:+ " has been uploaded for " +:+ slot_name field +:+ ".")
    false.

Definition handleFileUpload (field : FileSlot) (file : File) (p : Page)
  : Page * list Effect :=
  (with_files p (set_file (files p) field (Some file)),
   [ShowToast (toast_fileUploaded field file)]).

Definition handleSpeechResult (field result : string) (p : Page) : Page :=
  with_currentSpeechField (handleInputChange field result p) None.

Definition toast_missingFields : Toast :=
  mkToast "Missing Required Fields" "Please fill in all required fields." true.

Definition toast_missingDocuments : Toast :=
  mkToast "Missing Required Documents" "Please upload all required documents." true.

Definition missingFields (fd : gmap string string) : list string :=
  List.filter (fun field => Js.not_str (fd !! field)) requiredFields.

Definition missingFiles (fs : FileUploads) : list FileSlot :=
  List.filter (fun file => Js.not_obj (get_file fs file)) requiredFiles.

(** [validateForm]: the verdict and the toasts shown on the way. *)
Definition validateForm (p : Page) : bool * list Effect :=
  if (0 <? length (missingFields (formData p)))%nat then
    (false, [ShowToast toast_missingFields])
  else if (0 <? length (missingFiles (files p)))%nat then
    (false, [ShowToast toast_missingDocuments])
  else (true, []).

Definition toast_submitted : Toast :=
  mkToast "Application Submitted Successfully"
    "Your credit verification application has been submitted for review."
    false.

Definition toast_submissionFailed : Toast :=
  mkToast "Submission Failed"
    "There was an error submitting your application. Please try again."
    true.

(** How the awaited promise of the [try] block settles.  In the source
    the promise is a bare timer; [Rejects] stands for an exception
    raised at the [await], the case the [catch] block is written for. *)
Inductive CallOutcome := Resolves | Rejects.

(** [handleSubmit] runs in two turns of the event loop: up to the
    [await], and from the [await] to the end of [finally]. *)
Inductive SubmitTurn :=
| Returned (p : Page) (tr : list Effect)   (* [if (!validateForm()) return;] *)
| Awaiting (p : Page) (tr : list Effect).  (* suspended at the [await] *)

Definition handleSubmit_begin (p : Page) : SubmitTurn :=
  let '(ok, tr) := validateForm p in
  if negb ok then Returned p tr
  else Awaiting (with_isSubmitting p true) (tr ++ [SimulatedCall 2000]).

(** The continuation reads no state: its setters are given constants.
    [p] is the page state at the time the promise settles. *)
Definition handleSubmit_resume (o : CallOutcome) (p : Page)
  : Page * list Effect :=
  let '(p1, tr) :=
    match o with
    | Resolves =>
        (with_files (with_formData p emptyFormData) emptyFiles,
         [ShowToast toast_submitted])
    | Rejects => (p, [ShowToast toast_submissionFailed])
    end in
  (with_isSubmitting p1 false, tr).                       (* finally *)

(** A whole submission with nothing else happening during the wait. *)
Definition handleSubmit (o : CallOutcome) (p : Page) : Page * list Effect :=
  match handleSubmit_begin p with
  | Returned p' tr => (p', tr)
  | Awaiting p' tr =>
      let '(p'', tr') := handleSubmit_resume o p' in (p'', tr ++ tr')
  end.

Definition is_call (e : Effect) : bool :=
  match e with SimulatedCall _ => true | ShowToast _ => false end.

Definition calls (tr : list Effect) : nat := length (List.filter is_call tr).

(** ** The fields rendered by the page *)

Inductive FieldId :=
| FullName | DateOfBirth | AadharNumber | PanNumber
| AnnualIncome | MonthlyDebtPayments | EmploymentStatus
| MobileNumber | EmailAddress | StreetAddress | City | State | PinCode.

Definition allFields : list FieldId :=
  [ FullName; DateOfBirth; AadharNumber; PanNumber; AnnualIncome;
    MonthlyDebtPayments; EmploymentStatus; MobileNumber; EmailAddress;
    StreetAddress; City; State; PinCode ].

(** The string literal each widget passes to the handlers. *)
Definition field_key (f : FieldId) : string :=
  match f with
  | FullName => "fullName"
  | DateOfBirth => "dateOfBirth"
  | AadharNumber => "aadharNumber"
  | PanNumber => "panNumber"
  | AnnualIncome => "annualIncome"
  | MonthlyDebtPayments => "monthlyDebtPayments"
  | EmploymentStatus => "employmentStatus"
  | MobileNumber => "mobileNumber"
  | EmailAddress => "emailAddress"
  | StreetAddress => "streetAddress"
  | City => "city"
  | State => "state"
  | PinCode => "pinCode"
  end.

(** [employmentStatus] is a [Select]; it has no microphone. *)
Definition hasMicrophone (f : FieldId) : bool :=
  match f with EmploymentStatus => false | _ => true end.

(** What the [onChange] / [onValueChange] prop of field [f] passes on. *)
Definition typedValue (f : FieldId) (value : string) : string :=
  match f with
  | PanNumber => Js.toUpperCase value
  | _ => value
  end.

(** What the [onResult] prop of field [f]'s microphone passes on. *)
Definition dictatedValue (f : FieldId) (result : string) : string :=
  match f with
  | AadharNumber | AnnualIncome | MonthlyDebtPayments | MobileNumber
  | PinCode => Js.stripNonDigits result
  | PanNumber => Js.toUpperCase result
  | _ => result
  end.

Definition onChange (f : FieldId) (value : string) (p : Page) : Page :=
  handleInputChange (field_key f) (typedValue f value) p.

Definition onResult (f : FieldId) (result : string) (p : Page) : Page :=
  handleSpeechResult (field_key f) (dictatedValue f result) p.

(** [isActive={currentSpeechField === 'f'}] *)
Definition isActive (f : FieldId) (p : Page) : bool :=
  bool_decide (currentSpeechField p = Some (field_key f)).

(** [onToggle={() => setCurrentSpeechField(currentSpeechField === 'f' ? null : 'f')}] *)
Definition onToggle (f : FieldId) (p : Page) : Page :=
  with_currentSpeechField p
    (if isActive f p then None else Some (field_key f)).

(** Reading a field back, as the [value] prop of its widget does. *)
Definition readField (f : FieldId) (p : Page) : option string :=
  formData p !! field_key f.

(** ** The document drop zone ([FileUpload]) *)

Module DropZone.

(** Local state of one instance.  [fileInputRef] is the ref to the
    hidden file input: [None] while unmounted, otherwise the input's
    [value].  The held file is a prop owned by the caller. *)
Record State := mkState {
  fileInputRef : option string;
  isDragOver : bool;
}.

(** Calls made on the props. *)
Inductive Call := OnFileSelect (file : File).

Definition initial : State := mkState (Some "") false.

Definition handleFileSelect (file : File) : list Call := [OnFileSelect file].

(** [e.target.files?.[0]]: the list is [null] for a non-file input. *)
Definition handleInputChange (targetFiles : option (list File)) (z : State)
  : State * list Call :=
  match targetFiles ≫= (fun l => l !! 0%nat) with
  | Some file => (z, handleFileSelect file)
  | None => (z, [])
  end.

Definition handleDragOver (z : State) : State * list Call :=
  (mkState (fileInputRef z) true, []).

Definition handleDragLeave (z : State) : State * list Call :=
  (mkState (fileInputRef z) false, []).

Definition handleDrop (dataTransferFiles : list File) (z : State)
  : State * list Call :=
  let z' := mkState (fileInputRef z) false in
  if (0 <? length dataTransferFiles)%nat then
    match dataTransferFiles !! 0%nat with
    | Some file => (z', handleFileSelect file)
    | None => (z', [])
    end
  else (z', []).

Definition handleRemoveFile (z : State) : State * list Call :=
  match fileInputRef z with
  | Some _ => (mkState (Some "") (isDragOver z), [])
  | None => (z, [])
  end.

(** *** [formatFileSize]

    [bytes] is a [File.size], an integer.  The double arithmetic of
    the source is carried out on [Z]:
    - [Math.floor(Math.log(bytes) / Math.log(k))] is taken as the
      integer logarithm of [bytes] in base [k].  The two agree for
      every size below 1024^4 and at 1024^4 itself.  Above that the
      quotient of the two rounded logarithms can reach the next integer
      a few bytes early (just below 2^50 the source computes 5 where
      the integer logarithm is 4); it is never below 4 there;
    - the division by a power of 1024 is exact on doubles, and
      [x.toFixed(2)] picks the integer [n] of hundredths nearest to
      [x], the larger one on a tie;
    - [parseFloat(...)] followed by string concatenation prints these
      hundredths in shortest form, without trailing zeros. *)

Definition k : Z := 1024.

Definition sizes : list string := ["Bytes"; "KB"; "MB"; "GB"].

(** The largest [i] with [k^i <= bytes], for [bytes >= 1]. *)
Definition floor_log_k (bytes : Z) : Z := (Z.log2 bytes / Z.log2 k)%Z.

(** Hundredths of [bytes / unit], rounded half up. *)
Definition toFixed2 (bytes unit : Z) : Z :=
  ((200 * bytes + unit) / (2 * unit))%Z.

(** Shortest decimal form of [n / 100] for [n >= 0]. *)
Definition show_hundredths (n : Z) : string :=
  let whole := (n / 100)%Z in
  let frac := (n mod 100)%Z in
  if (frac =? 0)%Z then pretty whole
  else if (frac mod 10 =? 0)%Z
    then pretty whole +:+ "." +:+ pretty (frac / 10)%Z
    else pretty whole +:+ "." +:+ pretty (frac / 10)%Z
           +:+ pretty (frac mod 10)%Z.

(** [sizes[i]] inside a string concatenation. *)
Definition size_name (i : Z) : string :=
  default "undefined" (sizes !! Z.to_nat i).

Definition formatFileSize (bytes : Z) : string :=
  if (bytes =? 0)%Z then "0 Bytes"
  else if (bytes <? 0)%Z then "NaN undefined"   (* Math.log of a negative *)
  else
    let i := floor_log_k bytes in
    show_hundredths (toFixed2 bytes (k ^ i)%Z) +:+ " " +:+ size_name i.

End DropZone.

(** ** The page with its four drop zones, as an event-driven machine *)

(** [onFileSelect={(file) => handleFileUpload('slot', file)}] *)
Definition deliver (slot : FileSlot) (cs : list DropZone.Call) (p : Page)
  : Page * list Effect :=
  fold_left
    (fun acc c =>
       match c with
       | DropZone.OnFileSelect file =>
           let '(p', tr) := handleFileUpload slot file (fst acc) in
           (p', snd acc ++ tr)
       end)
    cs (p, []).

Record World := mkWorld {
  page : Page;
  zones : FileSlot -> DropZone.State;
  awaiting : nat;            (* submissions suspended at their [await] *)
  shown : list Effect;       (* everything issued so far, oldest first *)
}.

Inductive Event :=
| Typed (f : FieldId) (value : string)
| MicPressed (f : FieldId)
| Dictated (f : FieldId) (transcript : string)
| Dropped (slot : FileSlot) (dropped : list File)
| Browsed (slot : FileSlot) (chosen : option (list File))
| DragOver (slot : FileSlot)
| DragLeave (slot : FileSlot)
| RemovePressed (slot : FileSlot)
| SubmitPressed
| CallSettled (o : CallOutcome).

Global Instance FileSlot_eq_dec : EqDecision FileSlot.
Proof. solve_decision. Defined.

Global Instance FieldId_eq_dec : EqDecision FieldId.
Proof. solve_decision. Defined.

Definition set_zone (zs : FileSlot -> DropZone.State) (slot : FileSlot)
  (z : DropZone.State) : FileSlot -> DropZone.State :=
  fun s => if decide (s = slot) then z else zs s.

Definition zone_event (slot : FileSlot)
  (h : DropZone.State -> DropZone.State * list DropZone.Call) (w : World)
  : World :=
  let '(z', cs) := h (zones w slot) in
  let '(p', tr) := deliver slot cs (page w) in
  mkWorld p' (set_zone (zones w) slot z') (awaiting w) (shown w ++ tr).

Definition step (w : World) (e : Event) : World :=
  match e with
  | Typed f v =>
      mkWorld (onChange f v (page w)) (zones w) (awaiting w) (shown w)
  | MicPressed f =>
      if hasMicrophone f
      then mkWorld (onToggle f (page w)) (zones w) (awaiting w) (shown w)
      else w
  | Dictated f t =>
      if hasMicrophone f
      then mkWorld (onResult f t (page w)) (zones w) (awaiting w) (shown w)
      else w
  | Dropped slot l => zone_event slot (DropZone.handleDrop l) w
  | Browsed slot l => zone_event slot (DropZone.handleInputChange l) w
  | DragOver slot => zone_event slot DropZone.handleDragOver w
  | DragLeave slot => zone_event slot DropZone.handleDragLeave w
  | RemovePressed slot => zone_event slot DropZone.handleRemoveFile w
  | SubmitPressed =>
      if isSubmitting (page w) then w       (* the button is disabled *)
      else
        match handleSubmit_begin (page w) with
        | Returned p' tr => mkWorld p' (zones w) (awaiting w) (shown w ++ tr)
        | Awaiting p' tr =>
            mkWorld p' (zones w) (S (awaiting w)) (shown w ++ tr)
        end
  | CallSettled o =>
      match awaiting w with
      | O => w
      | S n =>
          let '(p', tr) := handleSubmit_resume o (page w) in
          mkWorld p' (zones w) n (shown w ++ tr)
      end
  end.

Definition initialWorld : World :=
  mkWorld initialPage (fun _ => DropZone.initial) 0 [].

Definition run (es : list Event) : World := fold_left step es initialWorld.

Definition reachable (p : Page) : Prop := exists es, page (run es) = p.

(** The fields whose microphone is active in [p]. *)
Definition activeTargets (p : Page) : list FieldId :=
  List.filter (fun f => isActive f p) allFields.

(** ** The voice-input adapter ([SpeechRecognition]) *)

Module Adapter.

(** Methods called on a recognition object. *)
Inductive Command := Start | Stop | Abort.

Inductive Out :=
| Session (object : nat) (c : Command)
| OnResult (transcript : string)        (* the [onResult] prop *)
| Notify (t : Toast)
| ConsoleError.

(** Component state.  The handlers that the first effect attaches to
    a recognition object are closures over the render in which the
    effect ran; of that render's variables they read [isListening]
    (in the timer callback of [onstart]).  [closures] records, for
    each object created so far, the [isListening] seen by its
    handlers, and [timers], for each pending timer, the one seen by
    its callback.  Refs are read when the code runs. *)
Record State := mkState {
  isListening : bool;                 (* useState(false) *)
  isSupported : bool;                 (* useState(false) *)
  recognitionRef : option nat;        (* useRef(null) *)
  timeoutRef : option nat;            (* useRef(null) *)
  closures : gmap nat bool;
  timers : gmap nat bool;
  nextObject : nat;
  nextTimer : nat;
  lastDeps : option (bool * bool);    (* [isActive, isSupported] when the
                                         second effect last ran *)
}.

Definition initial : State :=
  mkState false false None None ∅ ∅ 0 1 None.

Definition setIsListening (b : bool) (a : State) : State :=
  mkState b (isSupported a) (recognitionRef a) (timeoutRef a)
    (closures a) (timers a) (nextObject a) (nextTimer a) (lastDeps a).

Definition set_lastDeps (d : option (bool * bool)) (a : State) : State :=
  mkState (isListening a) (isSupported a) (recognitionRef a) (timeoutRef a)
    (closures a) (timers a) (nextObject a) (nextTimer a) d.

Definition set_timers (t : gmap nat bool) (a : State) : State :=
  mkState (isListening a) (isSupported a) (recognitionRef a) (timeoutRef a)
    (closures a) t (nextObject a) (nextTimer a) (lastDeps a).

(** [if (timeoutRef.current) clearTimeout(timeoutRef.current)] *)
Definition clearPending (a : State) : State :=
  match timeoutRef a with
  | Some h => set_timers (delete h (timers a)) a
  | None => a
  end.

Definition dquote : string := String (ascii_of_nat 34) EmptyString.

Definition toast_recognized (transcript : string) : Toast :=
  mkToast "Speech recognized"
    ("Captured: " +:+ dquote +:+ transcript +:+ dquote) false.

Definition errorMessage (error : string) : string :=
  if String.eqb error "no-speech" then
    "No speech detected. Please try again."
  else if String.eqb error "audio-capture" then
    "Microphone not available. Please check permissions."
  else if String.eqb error "not-allowed" then
    "Microphone access denied. Please allow microphone permissions."
  else if String.eqb error "network" then
    "Network error. Please check your connection."
  else "Speech recognition failed. Please try again.".

Definition toast_error (message : string) : Toast :=
  mkToast "Speech Recognition Error" message true.

(** *** First effect, dependencies [onResult, toast] *)

(** Body, run in a render that saw [isListening = seen]; [capable]
    says whether the window exposes a recognition constructor. *)
Definition setup (capable seen : bool) (a : State) : State :=
  if capable then
    let object := nextObject a in
    mkState (isListening a) true (Some object) (timeoutRef a)
      (<[object := seen]> (closures a)) (timers a)
      (S object) (nextTimer a) (lastDeps a)
  else a.

(** Its cleanup. *)
Definition cleanup (a : State) : State * list Out :=
  (clearPending a,
   match recognitionRef a with
   | Some object => [Session object Abort]
   | None => []
   end).

(** *** Second effect, dependencies [isActive, isSupported, toast] *)

Definition activation (active supported startThrows : bool) (a : State)
  : State * list Out :=
  match recognitionRef a with
  | Some object =>
      if active && supported then
        (a, Session object Start ::
            if startThrows then
              [ConsoleError;
               Notify (toast_error
                 "Failed to start speech recognition. Please try again.")]
            else [])
      else if negb active then
        (setIsListening false a, [Session object Stop])
      else (a, [])
  | None => (a, [])
  end.

(** *** Handlers attached to recognition object [object] *)

Definition onresult (object : nat) (transcript : string) (a : State)
  : State * list Out :=
  match closures a !! object with
  | Some _ =>
      (setIsListening false a,
       [OnResult transcript; Notify (toast_recognized transcript)])
  | None => (a, [])
  end.

Definition onerror (object : nat) (error : string) (a : State)
  : State * list Out :=
  match closures a !! object with
  | Some _ =>
      (setIsListening false a,
       [ConsoleError; Notify (toast_error (errorMessage error))])
  | None => (a, [])
  end.

Definition onend (object : nat) (a : State) : State * list Out :=
  match closures a !! object with
  | Some _ => (clearPending (setIsListening false a), [])
  | None => (a, [])
  end.

(** [onstart]: the timer callback it creates lives in the same
    closure, so it sees the [isListening] recorded for [object]. *)
Definition onstart (object : nat) (a : State) : State * list Out :=
  match (closures a !! object : option bool) with
  | Some seen =>
      let h := nextTimer a in
      (mkState true (isSupported a) (recognitionRef a) (Some h)
         (closures a) (<[h := seen]> (timers a))
         (nextObject a) (S h) (lastDeps a),
       [])
  | None => (a, [])
  end.

(** The callback of timer [h], 10000 ms after [onstart]:
    [if (recognitionRef.current && isListening) recognitionRef.current.stop()] *)
Definition watchdog (h : nat) (a : State) : State * list Out :=
  match (timers a !! h : option bool) with
  | Some seen =>
      let a' := set_timers (delete h (timers a)) a in
      match recognitionRef a' with
      | Some object =>
          if seen then (a', [Session object Stop]) else (a', [])
      | None => (a', [])
      end
  | None => (a, [])
  end.

(** *** Renders *)

(** One render followed by the effects whose dependencies changed.
    Both effect bodies see the state of this render. *)
Definition commit (capable onResultChanged active startThrows : bool)
  (a : State) : State * list Out :=
  let seenListening := isListening a in
  let seenSupported := isSupported a in
  let '(a1, o1) :=
    if onResultChanged then
      let '(a0, o0) := cleanup a in (setup capable seenListening a0, o0)
    else (a, []) in
  let '(a2, o2) :=
    if bool_decide (lastDeps a1 = Some (active, seenSupported)) then (a1, [])
    else activation active seenSupported startThrows
           (set_lastDeps (Some (active, seenSupported)) a1) in
  (a2, o1 ++ o2).

(** A render requested by the owner, then the render caused by the
    state updates of its effects ([setIsSupported] changes a
    dependency of the second effect once, after mounting). *)
Definition render (capable onResultChanged active startThrows : bool)
  (a : State) : State * list Out :=
  let '(a1, o1) := commit capable onResultChanged active startThrows a in
  let '(a2, o2) := commit capable false active startThrows a1 in
  (a2, o1 ++ o2).

Inductive Event :=
| OwnerRender (onResultChanged active startThrows : bool)
| BrowserStart (object : nat)
| BrowserResult (object : nat) (transcript : string)
| BrowserError (object : nat) (error : string)
| BrowserEnd (object : nat)
| TimerExpired (h : nat)
| Unmount.

Definition step (capable : bool) (a : State) (e : Event)
  : State * list Out :=
  match e with
  | OwnerRender c act thr => render capable c act thr a
  | BrowserStart object => onstart object a
  | BrowserResult object t => onresult object t a
  | BrowserError object err => onerror object err a
  | BrowserEnd object => onend object a
  | TimerExpired h => watchdog h a
  | Unmount => cleanup a
  end.

(** The state after each event together with what that event issued,
    oldest first. *)
Fixpoint trace (capable : bool) (a : State) (es : list Event)
  : list (State * list Out) :=
  match es with
  | [] => []
  | e :: es' =>
      let r := step capable a e in r :: trace capable (fst r) es'
  end.

Definition final (capable : bool) (a : State) (es : list Event) : State :=
  fold_left (fun s e => fst (step capable s e)) es a.

Definition issued (capable : bool) (a : State) (es : list Event)
  : list Out :=
  concat (List.map snd (trace capable a es)).

Definition is_stop (o : Out) : bool :=
  match o with Session _ Stop => true | _ => false end.

Definition is_result (o : Out) : bool :=
  match o with OnResult _ => true | _ => false end.

End Adapter.

(** ** Vocabulary of the properties *)

(** [FormData] is an object with the thirteen string properties. *)
Definition wellTyped (p : Page) : Prop :=
  forall f : FieldId, is_Some (formData p !! field_key f).

Definition fieldEmpty (p : Page) (f : FieldId) : Prop :=
  readField f p = Some "".

Definition fieldFilled (p : Page) (f : FieldId) : Prop :=
  exists v, readField f p = Some v /\ v <> "".

Definition slotEmpty (p : Page) (s : FileSlot) : Prop :=
  get_file (files p) s = None.

Definition someFieldEmpty (p : Page) : Prop := exists f, fieldEmpty p f.

Definition someSlotEmpty (p : Page) : Prop := exists s, slotEmpty p s.

Definition incomplete (p : Page) : Prop := someFieldEmpty p \/ someSlotEmpty p.

Definition complete (p : Page) : Prop :=
  (forall f, fieldFilled p f) /\ (forall s, is_Some (get_file (files p) s)).

(** Pressing submit in [p] ends in the same turn, leaves the page as
    it was and shows exactly the toast [t]. *)
Definition blockedWith (t : Toast) (p : Page) : Prop :=
  fst (validateForm p) = false /\
  handleSubmit_begin p = Returned p [ShowToast t] /\
  forall o, handleSubmit o p = (p, [ShowToast t]).

(** Field [f] is the one and only dictation target of [p]. *)
Definition soleTarget (f : FieldId) (p : Page) : Prop :=
  forall g, isActive g p = true <-> g = f.

(** Typing [v] into [f] and reading [f] back gives [v], whatever [v]. *)
Definition typedRoundTrip (f : FieldId) : Prop :=
  forall v p, readField f (onChange f v p) = Some v.

(** Typed values are stored as typed, in every field. *)
Definition typingIsVerbatim : Prop := forall f, typedRoundTrip f.

(** The fields whose [onResult] prop strips the non-digits. *)
Definition digitFields : list FieldId :=
  [ AadharNumber; AnnualIncome; MonthlyDebtPayments; MobileNumber; PinCode ].

Definition storedFiles (fs : FileUploads) : nat :=
  length (List.filter (fun s => negb (Js.not_obj (get_file fs s))) requiredFiles).

(** ** Sample inputs *)

Definition sampleFile (name : string) (size : Z) : File := mkFile name size.

(** Every field typed in, no document chosen yet. *)
Definition typedEverything : list Event :=
  [ Typed FullName "Asha Rao"; Typed DateOfBirth "1990-04-12";
    Typed AadharNumber "123412341234"; Typed PanNumber "abcde1234f";
    Typed AnnualIncome "850000"; Typed MonthlyDebtPayments "12000";
    Typed EmploymentStatus "self-employed"; Typed MobileNumber "9876543210";
    Typed EmailAddress "asha@example.org"; Typed StreetAddress "14 Lake Road";
    Typed City "Pune"; Typed State "Maharashtra"; Typed PinCode "411001" ].

Definition droppedEverything : list Event :=
  [ Dropped AadharCard [sampleFile "aadhar.pdf" 1536];
    Dropped PanCard [sampleFile "pan.png" 20480; sampleFile "extra.png" 7];
    Browsed SalarySlips (Some [sampleFile "slips.pdf" 1048576]);
    Dropped BankStatement [sampleFile "bank.pdf" 3145728] ].

Definition fieldsOnlyPage : Page := page (run typedEverything).

Definition filledPage : Page := page (run (typedEverything ++ droppedEverything)).

(** The adapter is mounted inactive in a capable browser, the owner
    then renders it active with a new [onResult] (as the page does on a
    microphone press), the browser reports the start of object 1, no
    result comes, and timer 1 expires. *)
Definition silentSession : list Adapter.Event :=
  [ Adapter.OwnerRender true false false;
    Adapter.OwnerRender true true false;
    Adapter.BrowserStart 1;
    Adapter.TimerExpired 1 ].

(** ** Further vocabulary *)

(** Every character of [s] is one of '0'..'9'. *)
Fixpoint allDigits (s : string) : bool :=
  match s with
  | EmptyString => true
  | String c r => Js.is_digit c && allDigits r
  end.

(** Some character of [s] is one of '0'..'9'. *)
Fixpoint hasDigit (s : string) : bool :=
  match s with
  | EmptyString => false
  | String c r => Js.is_digit c || hasDigit r
  end.

(** The property names of the [FormData] literal. *)
Definition formKeys : gset string := list_to_set requiredFields.

(** The submit control is disabled exactly while one call is awaited. *)
Definition singleFlight (w : World) : Prop :=
  (isSubmitting (page w) = true /\ awaiting w = 1%nat) \/
  (isSubmitting (page w) = false /\ awaiting w = 0%nat).

(** Events of the adapter other than a recognition result. *)
Definition notBrowserResult (e : Adapter.Event) : bool :=
  match e with Adapter.BrowserResult _ _ => false | _ => true end.

(** The adapter after mounting, activation and the start of its
    session: active, supported, listening on object 1. *)
Definition listeningAdapter : Adapter.State :=
  Adapter.final true Adapter.initial
    [ Adapter.OwnerRender true false false;
      Adapter.OwnerRender true true false;
      Adapter.BrowserStart 1 ].

(** The world in which the filled form has been submitted and the
    simulated call has not settled yet. *)
Definition submittingWorld : World :=
  run (typedEverything ++ droppedEverything ++ [SubmitPressed]).

(** The events of the zone of [slot] that carry no file. *)
Definition filelessEvents (slot : FileSlot) : list Event :=
  [ DragOver slot; DragLeave slot; RemovePressed slot;
    Dropped slot []; Browsed slot None; Browsed slot (Some []) ].

(** An adapter in a browser without speech recognition: nothing was
    ever created. *)
Definition inert (a : Adapter.State) : Prop :=
  Adapter.recognitionRef a = None /\ Adapter.timeoutRef a = None /\
  Adapter.closures a = ∅ /\ Adapter.timers a = ∅ /\
  Adapter.isListening a = false /\ Adapter.isSupported a = false.

(** * Properties *)

(** ** Presence validation *)

Lemma filter_nil_iff {A} (f : A -> bool) (l : list A) :
  List.filter f l = [] <-> Forall (fun x => f x = false) l.
Proof.
  induction l as [|x l IH]; simpl.
  - split; [constructor | reflexivity].
  - destruct (f x) eqn:E; split; intros H.
    + discriminate.
    + inversion H; congruence.
    + constructor; [assumption | now apply IH].
    + inversion H; subst. now apply IH.
Qed.

Lemma requiredFields_keys :
  requiredFields = field_key <$>
    [ FullName; AadharNumber; PanNumber; DateOfBirth; AnnualIncome;
      EmploymentStatus; MonthlyDebtPayments; MobileNumber; EmailAddress;
      StreetAddress; City; State; PinCode ].
Proof. reflexivity. Qed.

Lemma field_key_inj (f g : FieldId) : field_key f = field_key g -> f = g.
Proof. destruct f, g; simpl; intros H; first [reflexivity | discriminate H]. Qed.

Lemma missingFields_nil (fd : gmap string string) :
  missingFields fd = [] <->
  forall f, Js.not_str (fd !! field_key f) = false.
Proof.
  unfold missingFields. rewrite filter_nil_iff, requiredFields_keys.
  rewrite Forall_fmap. split.
  - intros H f. rewrite Forall_forall in H. apply (H f).
    destruct f; set_solver.
  - intros H. apply Forall_forall. intros f _. apply H.
Qed.

Lemma missingFiles_nil (fs : FileUploads) :
  missingFiles fs = [] <-> forall s, Js.not_obj (get_file fs s) = false.
Proof.
  unfold missingFiles. rewrite filter_nil_iff. split.
  - intros H s. rewrite Forall_forall in H. apply (H s).
    destruct s; set_solver.
  - intros H. apply Forall_forall. intros s _. apply H.
Qed.

Lemma length_pos_iff {A} (l : list A) : (0 <? length l)%nat = false <-> l = [].
Proof. destruct l; cbn; split; intros H; first [reflexivity | discriminate H]. Qed.

(** The verdict of [validateForm], case by case. *)
Lemma validateForm_fields (p : Page) (f : FieldId) :
  Js.not_str (formData p !! field_key f) = true ->
  validateForm p = (false, [ShowToast toast_missingFields]).
Proof.
  intros Hf. unfold validateForm.
  destruct (0 <? length (missingFields (formData p)))%nat eqn:E; [reflexivity|].
  apply length_pos_iff in E. rewrite missingFields_nil in E.
  specialize (E f). congruence.
Qed.

Lemma validateForm_documents (p : Page) (s : FileSlot) :
  (forall f, Js.not_str (formData p !! field_key f) = false) ->
  get_file (files p) s = None ->
  validateForm p = (false, [ShowToast toast_missingDocuments]).
Proof.
  intros Hf Hs. unfold validateForm.
  apply missingFields_nil in Hf. rewrite Hf. simpl.
  destruct (0 <? length (missingFiles (files p)))%nat eqn:E; [reflexivity|].
  apply length_pos_iff in E. rewrite missingFiles_nil in E.
  specialize (E s). rewrite Hs in E. discriminate E.
Qed.

Lemma validateForm_passes (p : Page) :
  (forall f, Js.not_str (formData p !! field_key f) = false) ->
  (forall s, Js.not_obj (get_file (files p) s) = false) ->
  validateForm p = (true, []).
Proof.
  intros Hf Hs. unfold validateForm.
  apply missingFields_nil in Hf. apply missingFiles_nil in Hs.
  now rewrite Hf, Hs.
Qed.

Lemma fieldEmpty_not_str (p : Page) (f : FieldId) :
  fieldEmpty p f -> Js.not_str (formData p !! field_key f) = true.
Proof. unfold fieldEmpty, readField. intros ->. reflexivity. Qed.

Lemma fieldFilled_not_str (p : Page) (f : FieldId) :
  fieldFilled p f -> Js.not_str (formData p !! field_key f) = false.
Proof.
  unfold fieldFilled, readField. intros (v & -> & Hv). simpl.
  now apply bool_decide_eq_false.
Qed.

Lemma no_fieldEmpty_filled (p : Page) :
  wellTyped p -> ~ someFieldEmpty p -> forall f, fieldFilled p f.
Proof.
  intros Hwt Hne f. destruct (Hwt f) as [v Hv].
  exists v. split; [exact Hv|]. intros ->. apply Hne. now exists f.
Qed.

Lemma missingFields_someFieldEmpty (p : Page) :
  wellTyped p -> missingFields (formData p) <> [] -> someFieldEmpty p.
Proof.
  intros Hwt Hne.
  destruct (missingFields (formData p)) as [|k ks] eqn:E; [congruence|].
  assert (Hin : In k (missingFields (formData p))) by (rewrite E; now left).
  unfold missingFields in Hin. apply List.filter_In in Hin as [Hk Hfalsy].
  rewrite requiredFields_keys in Hk. apply List.in_map_iff in Hk as (f & <- & _).
  exists f. unfold fieldEmpty, readField.
  destruct (Hwt f) as [v Hv]. rewrite Hv in Hfalsy |- *. simpl in Hfalsy.
  apply bool_decide_eq_true in Hfalsy. now subst.
Qed.

Lemma blockedWith_intro (t : Toast) (p : Page) :
  validateForm p = (false, [ShowToast t]) -> blockedWith t p.
Proof.
  intros H. unfold blockedWith, handleSubmit, handleSubmit_begin.
  rewrite H. simpl. auto.
Qed.

Lemma blocked_step (t : Toast) (p : Page) (w : World) :
  validateForm p = (false, [ShowToast t]) ->
  page w = p -> isSubmitting p = false ->
  page (step w SubmitPressed) = p /\
  isSubmitting (page (step w SubmitPressed)) = false /\
  awaiting (step w SubmitPressed) = awaiting w /\
  shown (step w SubmitPressed) = shown w ++ [ShowToast t].
Proof.
  intros Hv Hw Hs. simpl. rewrite Hw, Hs.
  unfold handleSubmit_begin. rewrite Hv. simpl. auto.
Qed.

(** Every reachable page is well typed. *)
Lemma step_wellTyped (w : World) (e : Event) :
  wellTyped (page w) -> wellTyped (page (step w e)).
Proof.
  intros Hwt. destruct e; simpl; try exact Hwt.
  - intros g. unfold onChange, handleInputChange. simpl.
    destruct (decide (field_key f = field_key g)) as [->|Hne].
    + rewrite lookup_insert_eq. eauto.
    + rewrite lookup_insert_ne by exact Hne. apply Hwt.
  - destruct (hasMicrophone f); exact Hwt.
  - destruct (hasMicrophone f); [|exact Hwt].
    intros g. unfold onResult, handleSpeechResult, handleInputChange. simpl.
    destruct (decide (field_key f = field_key g)) as [->|Hne].
    + rewrite lookup_insert_eq. eauto.
    + rewrite lookup_insert_ne by exact Hne. apply Hwt.
  - unfold zone_event, DropZone.handleDrop.
    destruct dropped as [|file rest]; simpl; exact Hwt.
  - unfold zone_event, DropZone.handleInputChange.
    destruct chosen as [[|file rest]|]; simpl; exact Hwt.
  - unfold zone_event, DropZone.handleRemoveFile.
    destruct (DropZone.fileInputRef (zones w slot)); simpl; exact Hwt.
  - destruct (isSubmitting (page w)); [exact Hwt|].
    unfold handleSubmit_begin. destruct (validateForm (page w)) as [[] tr];
      simpl; exact Hwt.
  - destruct (awaiting w); [exact Hwt|]. destruct o; simpl.
    + intros g. simpl. destruct g; vm_compute; eauto.
    + exact Hwt.
Qed.

Lemma reachable_wellTyped (p : Page) : reachable p -> wellTyped p.
Proof.
  intros [es <-]. unfold run.
  assert (Hinit : wellTyped (page initialWorld))
    by (intros f; destruct f; vm_compute; eauto).
  revert Hinit. generalize initialWorld.
  induction es as [|e es IH]; intros w Hw; simpl; [exact Hw|].
  apply IH. now apply step_wellTyped.
Qed.

Lemma initialPage_wellTyped : wellTyped initialPage.
Proof. intros f; destruct f; vm_compute; eauto. Qed.

Lemma fieldsOnlyPage_wellTyped : wellTyped fieldsOnlyPage.
Proof. apply reachable_wellTyped. now exists typedEverything. Qed.

Lemma filledPage_complete : complete filledPage.
Proof.
  split.
  - intros f. destruct f; eexists; (split; [vm_compute; reflexivity | discriminate]).
  - intros s. destruct s; vm_compute; eauto.
Qed.

(** C1.  In every form state where one of the thirteen fields is the
    empty string or one of the four file slots is empty, pressing submit
    is blocked: [validateForm] returns false, [handleSubmit] returns
    before the simulated call, exactly one toast is shown (the
    missing-fields one when a field is empty, the missing-documents one
    otherwise) and the page, [isSubmitting] included, is left as it was;
    no submission is left awaiting. *)
Theorem C1_incomplete_form_blocks_submission (p : Page) :
  wellTyped p -> incomplete p ->
  exists t,
    blockedWith t p /\
    (someFieldEmpty p -> t = toast_missingFields) /\
    (~ someFieldEmpty p -> t = toast_missingDocuments) /\
    calls [ShowToast t] = 0%nat /\
    forall w, page w = p -> isSubmitting p = false ->
      page (step w SubmitPressed) = p /\
      isSubmitting (page (step w SubmitPressed)) = false /\
      awaiting (step w SubmitPressed) = awaiting w /\
      shown (step w SubmitPressed) = shown w ++ [ShowToast t].
Proof.
  intros Hwt Hinc.
  assert (Hcases :
    (someFieldEmpty p /\
       validateForm p = (false, [ShowToast toast_missingFields])) \/
    (~ someFieldEmpty p /\
       validateForm p = (false, [ShowToast toast_missingDocuments]))).
  { destruct (missingFields (formData p)) as [|k ks] eqn:E.
    - right. rewrite missingFields_nil in E.
      assert (Hno : ~ someFieldEmpty p).
      { intros [f Hf]. apply fieldEmpty_not_str in Hf.
        specialize (E f). congruence. }
      split; [exact Hno|].
      destruct Hinc as [Hf | [s Hs]]; [contradiction|].
      now apply (validateForm_documents p s).
    - left.
      assert (Hsome : someFieldEmpty p).
      { apply missingFields_someFieldEmpty; [exact Hwt | congruence]. }
      split; [exact Hsome|]. destruct Hsome as [f Hf].
      apply (validateForm_fields p f). now apply fieldEmpty_not_str. }
  destruct Hcases as [[Hsome Hv] | [Hnone Hv]].
  - exists toast_missingFields.
    split; [now apply blockedWith_intro|].
    split; [reflexivity|]. split; [intros Hn; contradiction|].
    split; [reflexivity|]. intros w Hw Hs. now apply blocked_step.
  - exists toast_missingDocuments.
    split; [now apply blockedWith_intro|].
    split; [intros Hn; contradiction|]. split; [reflexivity|].
    split; [reflexivity|]. intros w Hw Hs. now apply blocked_step.
Qed.

Lemma C1_witness :
  wellTyped fieldsOnlyPage /\ incomplete fieldsOnlyPage /\
  exists t, blockedWith t fieldsOnlyPage /\ t = toast_missingDocuments.
Proof.
  assert (Hwt : wellTyped fieldsOnlyPage) by exact fieldsOnlyPage_wellTyped.
  assert (Hinc : incomplete fieldsOnlyPage).
  { right. exists AadharCard. vm_compute. reflexivity. }
  split; [exact Hwt|]. split; [exact Hinc|].
  destruct (C1_incomplete_form_blocks_submission fieldsOnlyPage Hwt Hinc)
    as (t & Hblocked & _ & Hdocs & _).
  exists t. split; [exact Hblocked|]. apply Hdocs.
  intros [f Hf]. destruct f; vm_compute in Hf; discriminate Hf.
Defined.

(** C10.  When a field is empty and a document slot is empty too,
    [validateForm] shows the missing-fields toast only and returns
    false, and it does so whatever the document slots hold: the field
    check comes first and ends the function before the slots are read. *)
Theorem C10_fields_checked_before_documents (p : Page) :
  someFieldEmpty p -> someSlotEmpty p ->
  validateForm p = (false, [ShowToast toast_missingFields]) /\
  forall fs : FileUploads,
    validateForm (with_files p fs) = (false, [ShowToast toast_missingFields]).
Proof.
  intros [f Hf] _. apply fieldEmpty_not_str in Hf. split.
  - now apply (validateForm_fields p f).
  - intros fs. now apply (validateForm_fields (with_files p fs) f).
Qed.

Lemma C10_witness :
  validateForm initialPage = (false, [ShowToast toast_missingFields]) /\
  forall fs : FileUploads,
    validateForm (with_files initialPage fs)
    = (false, [ShowToast toast_missingFields]).
Proof.
  apply (C10_fields_checked_before_documents initialPage).
  - exists FullName. vm_compute. reflexivity.
  - exists AadharCard. vm_compute. reflexivity.
Defined.

(** ** Submission *)

Lemma complete_validates (p : Page) : complete p -> validateForm p = (true, []).
Proof.
  intros [Hf Hs]. apply validateForm_passes.
  - intros f. apply fieldFilled_not_str, Hf.
  - intros s. destruct (Hs s) as [file ->]. reflexivity.
Qed.

Lemma emptyFormData_read (f : FieldId) (p : Page) :
  formData p = emptyFormData -> readField f p = Some "".
Proof. unfold readField. intros ->. destruct f; vm_compute; reflexivity. Qed.

(** What the continuation of [handleSubmit] does, in whatever state
    the page is when the awaited call settles. *)
Lemma handleSubmit_resume_resolves (q : Page) :
  handleSubmit_resume Resolves q
  = (mkPage emptyFormData emptyFiles (currentSpeechField q) false,
     [ShowToast toast_submitted]).
Proof. reflexivity. Qed.

Lemma handleSubmit_resume_rejects (q : Page) :
  handleSubmit_resume Rejects q
  = (mkPage (formData q) (files q) (currentSpeechField q) false,
     [ShowToast toast_submissionFailed]).
Proof. reflexivity. Qed.

(** C2.  With the thirteen fields non-empty and the four slots filled,
    pressing submit sets [isSubmitting] and makes the simulated call
    once.  When the call resolves, the success toast is shown and every
    field is reset to the empty string and every slot to empty; when it
    throws, the failure toast is shown and fields and files are left as
    they were.  Either way [isSubmitting] is false afterwards. *)
Theorem C2_complete_form_submits_once_then_resets (p : Page) :
  complete p ->
  handleSubmit_begin p
    = Awaiting (with_isSubmitting p true) [SimulatedCall 2000] /\
  (forall o, calls (snd (handleSubmit o p)) = 1%nat /\
             isSubmitting (fst (handleSubmit o p)) = false) /\
  handleSubmit Resolves p
    = (mkPage emptyFormData emptyFiles (currentSpeechField p) false,
       [SimulatedCall 2000; ShowToast toast_submitted]) /\
  (forall f, readField f (fst (handleSubmit Resolves p)) = Some "") /\
  (forall s, get_file (files (fst (handleSubmit Resolves p))) s = None) /\
  handleSubmit Rejects p
    = (mkPage (formData p) (files p) (currentSpeechField p) false,
       [SimulatedCall 2000; ShowToast toast_submissionFailed]).
Proof.
  intros Hc. apply complete_validates in Hc.
  assert (Hb : handleSubmit_begin p
               = Awaiting (with_isSubmitting p true) [SimulatedCall 2000]).
  { unfold handleSubmit_begin. rewrite Hc. reflexivity. }
  assert (Hres : handleSubmit Resolves p
    = (mkPage emptyFormData emptyFiles (currentSpeechField p) false,
       [SimulatedCall 2000; ShowToast toast_submitted])).
  { unfold handleSubmit. rewrite Hb. reflexivity. }
  assert (Hrej : handleSubmit Rejects p
    = (mkPage (formData p) (files p) (currentSpeechField p) false,
       [SimulatedCall 2000; ShowToast toast_submissionFailed])).
  { unfold handleSubmit. rewrite Hb. reflexivity. }
  split; [exact Hb|]. split.
  { intros [|]; [rewrite Hres | rewrite Hrej]; split; reflexivity. }
  split; [exact Hres|]. rewrite Hres. simpl. split.
  { intros f. now apply emptyFormData_read. }
  split; [|exact Hrej]. intros s. destruct s; reflexivity.
Qed.

Lemma C2_witness :
  complete filledPage /\
  calls (snd (handleSubmit Resolves filledPage)) = 1%nat /\
  isSubmitting (fst (handleSubmit Rejects filledPage)) = false /\
  readField PanNumber (fst (handleSubmit Resolves filledPage)) = Some "" /\
  readField PanNumber (fst (handleSubmit Rejects filledPage))
    = Some "ABCDE1234F".
Proof.
  pose proof (C2_complete_form_submits_once_then_resets
                filledPage filledPage_complete)
    as (_ & Hboth & _ & Hfields & _ & Hrej).
  split; [exact filledPage_complete|].
  split; [apply (Hboth Resolves)|].
  split; [apply (Hboth Rejects)|].
  split; [apply Hfields|].
  rewrite Hrej. vm_compute. reflexivity.
Defined.

(** ** Dictation target *)

Lemma isActive_true (f : FieldId) (p : Page) :
  isActive f p = true <-> currentSpeechField p = Some (field_key f).
Proof. unfold isActive. apply bool_decide_eq_true. Qed.

Lemma isActive_unique (f g : FieldId) (p : Page) :
  isActive f p = true -> isActive g p = true -> f = g.
Proof.
  rewrite !isActive_true. intros Hf Hg. apply field_key_inj. congruence.
Qed.

Lemma filter_at_most_one {A} (P : A -> bool) (l : list A) :
  NoDup l -> (forall x y, P x = true -> P y = true -> x = y) ->
  (length (List.filter P l) <= 1)%nat.
Proof.
  intros Hnd Huniq. induction Hnd as [|x l Hx Hnd IH]; simpl; [lia|].
  destruct (P x) eqn:Ex; [|exact IH]. simpl.
  assert (Hnil : List.filter P l = []).
  { apply filter_nil_iff, Forall_forall. intros y Hy.
    destruct (P y) eqn:Ey; [|reflexivity].
    exfalso. apply Hx. now rewrite (Huniq x y Ex Ey). }
  rewrite Hnil. simpl. lia.
Qed.

Lemma allFields_NoDup : NoDup allFields.
Proof. apply (bool_decide_unpack _). vm_compute. exact I. Qed.

Lemma activeTargets_at_most_one (p : Page) : (length (activeTargets p) <= 1)%nat.
Proof.
  apply filter_at_most_one; [exact allFields_NoDup|].
  intros f g. apply isActive_unique.
Qed.

Lemma soleTarget_onToggle (a : FieldId) (p : Page) :
  isActive a p = false -> soleTarget a (onToggle a p).
Proof.
  intros Ha g. unfold onToggle. rewrite Ha. rewrite isActive_true. simpl.
  split.
  - intros H. apply field_key_inj. congruence.
  - now intros ->.
Qed.

(** C4.  In every reachable page state at most one field is the active
    dictation target.  Pressing the microphone of field [a] makes [a]
    the sole target when none is active, clears the target when [a]
    itself is active, and when another field [b] is active makes [a]
    the sole target, so [b] is no longer active. *)
Theorem C4_single_dictation_target (p : Page) :
  reachable p ->
  (forall f g, isActive f p = true -> isActive g p = true -> f = g) /\
  (length (activeTargets p) <= 1)%nat /\
  (forall a, currentSpeechField p = None -> soleTarget a (onToggle a p)) /\
  (forall a, isActive a p = true ->
     currentSpeechField (onToggle a p) = None /\
     forall g, isActive g (onToggle a p) = false) /\
  (forall a b, isActive b p = true -> a <> b ->
     soleTarget a (onToggle a p) /\ isActive b (onToggle a p) = false).
Proof.
  intros _. split; [intros f g; apply isActive_unique|].
  split; [apply activeTargets_at_most_one|]. split; [|split].
  - intros a Hnone. apply soleTarget_onToggle.
    unfold isActive. rewrite Hnone. now apply bool_decide_eq_false.
  - intros a Ha. unfold onToggle. rewrite Ha. simpl. split; [reflexivity|].
    intros g. reflexivity.
  - intros a b Hb Hab.
    assert (Ha : isActive a p = false).
    { destruct (isActive a p) eqn:E; [|reflexivity].
      exfalso. apply Hab. now apply (isActive_unique a b p). }
    pose proof (soleTarget_onToggle a p Ha) as Hsole.
    split; [exact Hsole|].
    destruct (isActive b (onToggle a p)) eqn:E; [|reflexivity].
    apply Hsole in E. congruence.
Qed.

Lemma C4_witness :
  let p := page (run [MicPressed City]) in
  isActive City p = true /\
  soleTarget State (onToggle State p) /\
  isActive City (onToggle State p) = false.
Proof.
  intros p.
  assert (Hr : reachable p) by (now exists [MicPressed City]).
  assert (Hc : isActive City p = true) by (vm_compute; reflexivity).
  destruct (C4_single_dictation_target p Hr) as (_ & _ & _ & _ & Hswitch).
  split; [exact Hc|]. apply (Hswitch State City Hc). discriminate.
Defined.

(** ** Typed and dictated values *)

Lemma readField_onChange (f : FieldId) (v : string) (p : Page) :
  readField f (onChange f v p) = Some (typedValue f v).
Proof. unfold readField, onChange, handleInputChange. simpl. apply lookup_insert_eq. Qed.

Lemma readField_onResult (f : FieldId) (r : string) (p : Page) :
  readField f (onResult f r p) = Some (dictatedValue f r).
Proof.
  unfold readField, onResult, handleSpeechResult, handleInputChange. simpl.
  apply lookup_insert_eq.
Qed.

(** Another field is not touched by typing. *)
Lemma readField_onChange_other (f g : FieldId) (v : string) (p : Page) :
  f <> g -> readField g (onChange f v p) = readField g p.
Proof.
  intros Hne. unfold readField, onChange, handleInputChange. simpl.
  apply lookup_insert_ne. intros H. apply Hne. now apply field_key_inj.
Qed.

Lemma upper_ascii_idem (c : ascii) :
  Js.upper_ascii (Js.upper_ascii c) = Js.upper_ascii c.
Proof. destruct c as [[] [] [] [] [] [] [] []]; reflexivity. Qed.

Lemma toUpperCase_idem (s : string) :
  Js.toUpperCase (Js.toUpperCase s) = Js.toUpperCase s.
Proof.
  induction s as [|c s IH]; simpl; [reflexivity|].
  now rewrite upper_ascii_idem, IH.
Qed.

Lemma typedRoundTrip_not_pan (f : FieldId) : f <> PanNumber -> typedRoundTrip f.
Proof.
  intros Hne v p. rewrite readField_onChange.
  destruct f; first [reflexivity | contradiction].
Qed.

Lemma pan_not_typedRoundTrip : ~ typedRoundTrip PanNumber.
Proof.
  intros H. specialize (H "abcde1234f" initialPage).
  rewrite readField_onChange in H. vm_compute in H. discriminate H.
Qed.

(** C5, as stated, fails: it names two uppercasing fields and the
    digit-stripping fields as the exceptions to the typed round trip,
    but [aadharNumber], one of the digit-stripping fields, reads back
    whatever is typed, and no two distinct fields fail the round trip. *)
Lemma C5_counterexample :
  In AadharNumber digitFields /\
  dictatedValue AadharNumber "1234 abcd" = "1234" /\
  typedRoundTrip AadharNumber /\
  ~ (exists f1 f2 : FieldId,
       f1 <> f2 /\ ~ typedRoundTrip f1 /\ ~ typedRoundTrip f2).
Proof.
  split; [now left|]. split; [reflexivity|].
  split; [now apply typedRoundTrip_not_pan|].
  intros (f1 & f2 & Hne & H1 & H2).
  destruct (decide (f1 = PanNumber)) as [E1|E1];
    [|now apply H1, typedRoundTrip_not_pan].
  destruct (decide (f2 = PanNumber)) as [E2|E2];
    [|now apply H2, typedRoundTrip_not_pan].
  congruence.
Qed.

(** C5, amended.  For every field other than [panNumber] and every
    string, typing the string and reading the field back gives the same
    string; this includes the fields whose dictation path strips the
    non-digits.  The one exception is [panNumber], whose setter
    uppercases: it reads back the uppercased string.  Typing what was
    read back changes nothing, in every field. *)
Theorem C5_typed_round_trip :
  (forall f v p, f <> PanNumber -> readField f (onChange f v p) = Some v) /\
  (forall f, In f digitFields -> typedRoundTrip f) /\
  (forall v p,
     readField PanNumber (onChange PanNumber v p) = Some (Js.toUpperCase v)) /\
  ~ typedRoundTrip PanNumber /\
  (forall f v p w,
     readField f (onChange f v p) = Some w ->
     readField f (onChange f w (onChange f v p)) = Some w).
Proof.
  split; [intros f v p Hne; now apply typedRoundTrip_not_pan|].
  split.
  { intros f Hin. apply typedRoundTrip_not_pan. intros ->.
    simpl in Hin. intuition discriminate. }
  split; [intros v p; apply readField_onChange|].
  split; [exact pan_not_typedRoundTrip|].
  intros f v p w. rewrite !readField_onChange. intros [= <-].
  f_equal. destruct f; simpl; first [reflexivity | apply toUpperCase_idem].
Qed.

Lemma C5_witness :
  readField AadharNumber (onChange AadharNumber "12 ab" initialPage)
    = Some "12 ab" /\
  readField PanNumber
    (onChange PanNumber "ABCDE1234F" (onChange PanNumber "abcde1234f" initialPage))
    = Some "ABCDE1234F".
Proof.
  destruct C5_typed_round_trip as (Hid & _ & _ & _ & Hagain).
  split.
  - apply (Hid AadharNumber "12 ab" initialPage). discriminate.
  - apply (Hagain PanNumber "abcde1234f" initialPage "ABCDE1234F").
    vm_compute. reflexivity.
Defined.

(** C6, as stated, fails: a value typed into [panNumber] is stored
    uppercased, so typing is not verbatim in every field. *)
Lemma C6_counterexample :
  readField PanNumber (onChange PanNumber "abcde1234f" initialPage)
    = Some "ABCDE1234F" /\
  ~ typingIsVerbatim.
Proof.
  split; [vm_compute; reflexivity|].
  intros H. exact (pan_not_typedRoundTrip (H PanNumber)).
Qed.

(** C6, amended.  Digit-stripping is applied on the dictation path
    only, for [aadharNumber], [annualIncome], [monthlyDebtPayments],
    [mobileNumber] and [pinCode]; a typed value is never stripped.
    Uppercasing is applied to [panNumber] on both paths and to no other
    field: a typed value is stored as typed in every field but
    [panNumber], where it is stored uppercased. *)
Theorem C6_transformations_by_path :
  (forall f v p,
     readField f (onChange f v p)
     = Some (if decide (f = PanNumber) then Js.toUpperCase v else v)) /\
  (forall f r p, In f digitFields ->
     readField f (onResult f r p) = Some (Js.stripNonDigits r)) /\
  (forall r p,
     readField PanNumber (onResult PanNumber r p) = Some (Js.toUpperCase r)) /\
  (forall f r p, ~ In f digitFields -> f <> PanNumber ->
     readField f (onResult f r p) = Some r).
Proof.
  split.
  { intros f v p. rewrite readField_onChange.
    destruct (decide (f = PanNumber)) as [->|Hne]; [reflexivity|].
    destruct f; first [reflexivity | contradiction]. }
  split.
  { intros f r p Hin. rewrite readField_onResult.
    simpl in Hin. intuition subst; reflexivity. }
  split; [intros r p; apply readField_onResult|].
  intros f r p Hnin Hne. rewrite readField_onResult.
  destruct f; first [reflexivity | contradiction | exfalso; apply Hnin; simpl; tauto].
Qed.

Lemma C6_witness :
  readField MobileNumber (onResult MobileNumber "98765 43210 please" initialPage)
    = Some "9876543210" /\
  readField City (onResult City "Pune 411001" initialPage)
    = Some "Pune 411001".
Proof.
  destruct C6_transformations_by_path as (_ & Hstrip & _ & Hplain).
  split.
  - rewrite (Hstrip MobileNumber "98765 43210 please" initialPage).
    + vm_compute. reflexivity.
    + simpl. tauto.
  - apply (Hplain City "Pune 411001" initialPage).
    + simpl. intuition discriminate.
    + discriminate.
Defined.

(** ** Drop zone *)

Lemma deliver_nil (slot : FileSlot) (p : Page) : deliver slot [] p = (p, []).
Proof. reflexivity. Qed.

Lemma deliver_one (slot : FileSlot) (file : File) (p : Page) :
  deliver slot [DropZone.OnFileSelect file] p = handleFileUpload slot file p.
Proof. reflexivity. Qed.

Lemma get_set_file_same (fs : FileUploads) (k : FileSlot) (v : option File) :
  get_file (set_file fs k v) k = v.
Proof. destruct k; reflexivity. Qed.

Lemma get_set_file_other (fs : FileUploads) (k s : FileSlot) (v : option File) :
  s <> k -> get_file (set_file fs k v) s = get_file fs s.
Proof. destruct k, s; intros H; first [reflexivity | contradiction]. Qed.

(** C7.  The remove affordance empties the value of the component's
    own file input and calls nothing on its props: the page is the same
    before and after, so the slot of [FileUploads] that the zone shows
    as [currentFile] still holds its file, and no toast is shown. *)
Theorem C7_remove_clears_only_the_input :
  (forall z : DropZone.State,
     snd (DropZone.handleRemoveFile z) = [] /\
     DropZone.fileInputRef (fst (DropZone.handleRemoveFile z))
       = (fun _ => "") <$> DropZone.fileInputRef z /\
     DropZone.isDragOver (fst (DropZone.handleRemoveFile z))
       = DropZone.isDragOver z) /\
  (forall (w : World) (slot : FileSlot),
     page (step w (RemovePressed slot)) = page w /\
     get_file (files (page (step w (RemovePressed slot)))) slot
       = get_file (files (page w)) slot /\
     shown (step w (RemovePressed slot)) = shown w /\
     awaiting (step w (RemovePressed slot)) = awaiting w).
Proof.
  split.
  - intros z. unfold DropZone.handleRemoveFile.
    destruct (DropZone.fileInputRef z) eqn:E; simpl; rewrite ?E; auto.
  - intros w slot. simpl. unfold zone_event, DropZone.handleRemoveFile.
    destruct (DropZone.fileInputRef (zones w slot)); simpl;
      rewrite ?app_nil_r; auto.
Qed.

(** The held file survives a press on remove, on a concrete run. *)
Example remove_keeps_held_file :
  let w := run (typedEverything ++ droppedEverything) in
  get_file (files (page (step w (RemovePressed AadharCard)))) AadharCard
  = Some (sampleFile "aadhar.pdf" 1536).
Proof. vm_compute. reflexivity. Qed.

(** C8.  A drop carrying at least one file clears the drag-over flag
    and calls the selection callback once, with the first file of the
    list; the other files are not passed on.  The page then holds that
    first file in the zone's slot and leaves the other slots alone; in
    particular two files dropped on an empty page leave one stored
    file, the first. *)
Theorem C8_drop_forwards_first_file
  (dropped : list File) (z : DropZone.State) :
  (0 < length dropped)%nat ->
  exists first,
    dropped !! 0%nat = Some first /\
    snd (DropZone.handleDrop dropped z) = [DropZone.OnFileSelect first] /\
    DropZone.isDragOver (fst (DropZone.handleDrop dropped z)) = false /\
    (forall slot p,
       get_file
         (files (fst (deliver slot (snd (DropZone.handleDrop dropped z)) p)))
         slot = Some first /\
       forall s, s <> slot ->
         get_file
           (files (fst (deliver slot (snd (DropZone.handleDrop dropped z)) p)))
           s = get_file (files p) s) /\
    (forall slot second,
       dropped = [first; second] ->
       storedFiles (files (page (step initialWorld (Dropped slot dropped))))
         = 1%nat /\
       get_file (files (page (step initialWorld (Dropped slot dropped)))) slot
         = Some first).
Proof.
  intros Hlen. destruct dropped as [|first rest]; [simpl in Hlen; lia|].
  exists first. split; [reflexivity|]. split; [reflexivity|].
  split; [reflexivity|]. split.
  - intros slot p. simpl. split.
    + apply get_set_file_same.
    + intros s Hs. now apply get_set_file_other.
  - intros slot second [= ->]. destruct slot; split; reflexivity.
Qed.

Lemma C8_witness :
  exists first,
    [sampleFile "pan.png" 20480; sampleFile "extra.png" 7] !! 0%nat = Some first /\
    storedFiles
      (files (page (step initialWorld
         (Dropped PanCard [sampleFile "pan.png" 20480; sampleFile "extra.png" 7]))))
    = 1%nat.
Proof.
  destruct (C8_drop_forwards_first_file
              [sampleFile "pan.png" 20480; sampleFile "extra.png" 7]
              DropZone.initial)
    as (first & Hfirst & _ & _ & _ & Htwo).
  - simpl. lia.
  - exists first. split; [exact Hfirst|].
    injection Hfirst as <-.
    apply (Htwo PanCard (sampleFile "extra.png" 7)). reflexivity.
Defined.

(** ** File size formatting *)

Lemma floor_log_k_spec (bytes : Z) :
  (1 <= bytes)%Z ->
  (0 <= DropZone.floor_log_k bytes /\
   1024 ^ DropZone.floor_log_k bytes <= bytes
     < 1024 ^ (DropZone.floor_log_k bytes + 1))%Z.
Proof.
  intros Hb. unfold DropZone.floor_log_k.
  change (Z.log2 DropZone.k) with 10%Z.
  pose proof (Z.log2_nonneg bytes) as HL.
  destruct (Z.log2_spec bytes ltac:(lia)) as [Hlo Hhi].
  set (L := Z.log2 bytes) in *. set (i := (L / 10)%Z).
  assert (Hi : (0 <= i)%Z) by (apply Z.div_pos; lia).
  assert (Hdm : (10 * i <= L < 10 * i + 10)%Z).
  { pose proof (Z.div_mod L 10 ltac:(lia)).
    pose proof (Z.mod_pos_bound L 10 ltac:(lia)). subst i. lia. }
  assert (Hpow : forall j, (0 <= j)%Z -> (1024 ^ j = 2 ^ (10 * j))%Z).
  { intros j Hj. change 1024%Z with (2 ^ 10)%Z.
    rewrite <- Z.pow_mul_r by lia. reflexivity. }
  split; [exact Hi|]. rewrite !Hpow by lia. split.
  - apply Z.le_trans with (2 ^ L)%Z; [|exact Hlo].
    apply Z.pow_le_mono_r; lia.
  - apply Z.lt_le_trans with (2 ^ Z.succ L)%Z; [exact Hhi|].
    apply Z.pow_le_mono_r; lia.
Qed.

Lemma toFixed2_nearest (bytes unit : Z) :
  (0 < unit)%Z ->
  (2 * Z.abs (100 * bytes - DropZone.toFixed2 bytes unit * unit) <= unit)%Z.
Proof.
  intros Hu. unfold DropZone.toFixed2.
  pose proof (Z.div_mod (200 * bytes + unit) (2 * unit) ltac:(lia)) as Hdm.
  pose proof (Z.mod_pos_bound (200 * bytes + unit) (2 * unit) ltac:(lia)) as Hm.
  set (n := ((200 * bytes + unit) / (2 * unit))%Z) in *.
  set (r := ((200 * bytes + unit) mod (2 * unit))%Z) in *.
  assert (E : (200 * bytes - 2 * (n * unit) = r - unit)%Z) by lia.
  lia.
Qed.

Example show_hundredths_examples :
  DropZone.show_hundredths 100 = "1" /\
  DropZone.show_hundredths 150 = "1.5" /\
  DropZone.show_hundredths 113 = "1.13" /\
  DropZone.show_hundredths 1205 = "12.05" /\
  DropZone.show_hundredths 102400 = "1024".
Proof. vm_compute. repeat split. Qed.

(** C9, on the code.  For a size of 1024^4 bytes the index computed
    from the logarithm is 4, one past the last entry of the table
    Bytes, KB, MB, GB, and [formatFileSize] returns "1 undefined": the
    size is not rendered with one of the binary prefixes. *)
Theorem C9_formatFileSize_unit_table_overrun :
  DropZone.floor_log_k (1024 ^ 4) = 4%Z /\
  DropZone.sizes !! 4%nat = None /\
  length DropZone.sizes = 4%nat /\
  DropZone.formatFileSize (1024 ^ 4) = "1 undefined".
Proof. vm_compute. repeat split. Qed.

(** X23.  [formatFileSize 0] is "0 Bytes" and [formatFileSize 1536] is
    "1.5 KB".  For every size from one byte up to, but excluding,
    1024^4 bytes the result is a number followed by a space and one of
    Bytes, KB, MB, GB: the unit is the largest power [1024^i] that does
    not exceed the size, and the number is the size divided by that
    power, rounded to the nearest hundredth. *)
Theorem formatFileSize_below_one_tebibyte :
  DropZone.formatFileSize 0 = "0 Bytes" /\
  DropZone.formatFileSize 1536 = "1.5 KB" /\
  forall bytes : Z,
    (0 < bytes < 1024 ^ 4)%Z ->
    exists (i n : Z) (unit : string),
      (0 <= i < 4)%Z /\
      DropZone.sizes !! Z.to_nat i = Some unit /\
      (1024 ^ i <= bytes < 1024 ^ (i + 1))%Z /\
      (2 * Z.abs (100 * bytes - n * 1024 ^ i) <= 1024 ^ i)%Z /\
      DropZone.formatFileSize bytes
        = DropZone.show_hundredths n +:+ " " +:+ unit.
Proof.
  split; [reflexivity|]. split; [vm_compute; reflexivity|].
  intros bytes [Hpos Hlt].
  destruct (floor_log_k_spec bytes ltac:(lia)) as (Hi0 & Hlo & Hhi).
  set (i := DropZone.floor_log_k bytes) in *.
  assert (Hi4 : (i < 4)%Z).
  { destruct (Z_lt_le_dec i 4) as [H|H]; [exact H|]. exfalso.
    assert (1024 ^ 4 <= 1024 ^ i)%Z by (apply Z.pow_le_mono_r; lia). lia. }
  assert (Hunit : exists unit, DropZone.sizes !! Z.to_nat i = Some unit).
  { assert (Hcases : i = 0%Z \/ i = 1%Z \/ i = 2%Z \/ i = 3%Z) by lia.
    destruct Hcases as [-> | [-> | [-> | ->]]]; simpl; eauto. }
  destruct Hunit as [unit Hunit].
  exists i, (DropZone.toFixed2 bytes (1024 ^ i)), unit.
  split; [lia|]. split; [exact Hunit|]. split; [lia|]. split.
  - apply toFixed2_nearest. apply Z.pow_pos_nonneg; lia.
  - unfold DropZone.formatFileSize.
    destruct (bytes =? 0)%Z eqn:E0; [apply Z.eqb_eq in E0; lia|].
    destruct (bytes <? 0)%Z eqn:E1; [apply Z.ltb_lt in E1; lia|].
    fold i. unfold DropZone.size_name. rewrite Hunit. reflexivity.
Qed.

Lemma formatFileSize_below_one_tebibyte_witness :
  exists (i n : Z) (unit : string),
    (0 <= i < 4)%Z /\
    DropZone.sizes !! Z.to_nat i = Some unit /\
    (1024 ^ i <= 3145728 < 1024 ^ (i + 1))%Z /\
    (2 * Z.abs (100 * 3145728 - n * 1024 ^ i) <= 1024 ^ i)%Z /\
    DropZone.formatFileSize 3145728
      = DropZone.show_hundredths n +:+ " " +:+ unit.
Proof.
  destruct formatFileSize_below_one_tebibyte as (_ & _ & Hall).
  apply (Hall 3145728%Z). split; [lia | reflexivity].
Defined.

(** ** Watchdog of the adapter *)

(** A render with a new [onResult], made while the adapter is not
    listening, leaves in the ref an object whose handlers saw
    [isListening = false]. *)
Lemma render_while_idle (active startThrows : bool) (a : Adapter.State) :
  Adapter.isListening a = false ->
  exists object,
    Adapter.recognitionRef
      (fst (Adapter.render true true active startThrows a)) = Some object /\
    Adapter.closures
      (fst (Adapter.render true true active startThrows a)) !! object
      = Some false.
Proof.
  intros Hidle. exists (Adapter.nextObject a).
  unfold Adapter.render, Adapter.commit, Adapter.cleanup, Adapter.setup,
    Adapter.activation, Adapter.clearPending.
  rewrite Hidle. simpl.
  repeat (first
    [ progress simpl
    | match goal with
      | |- context [bool_decide ?P] => destruct (bool_decide P)
      | |- context [if ?b then _ else _] => destruct b
      | |- context [match Adapter.timeoutRef a with _ => _ end] =>
          destruct (Adapter.timeoutRef a)
      end ]);
    (split; [reflexivity | apply lookup_insert_eq]).
Qed.

(** The timer armed by the [onstart] of such an object requests
    nothing when it expires, and the adapter is still listening. *)
Lemma stale_watchdog_is_inert (object : nat) (a : Adapter.State) :
  Adapter.closures a !! object = Some false ->
  Adapter.timeoutRef (fst (Adapter.onstart object a))
    = Some (Adapter.nextTimer a) /\
  Adapter.isListening (fst (Adapter.onstart object a)) = true /\
  snd (Adapter.watchdog (Adapter.nextTimer a) (fst (Adapter.onstart object a)))
    = [] /\
  Adapter.isListening
    (fst (Adapter.watchdog (Adapter.nextTimer a)
            (fst (Adapter.onstart object a)))) = true.
Proof.
  intros Hc. unfold Adapter.onstart. rewrite Hc. simpl.
  split; [reflexivity|]. split; [reflexivity|].
  unfold Adapter.watchdog. simpl. rewrite lookup_insert_eq. simpl.
  destruct (Adapter.recognitionRef a); simpl; auto.
Qed.

(** Had the callback seen [isListening = true], it would have
    requested the stop. *)
Lemma fresh_watchdog_stops (object h : nat) (a : Adapter.State) :
  Adapter.recognitionRef a = Some object ->
  Adapter.timers a !! h = Some true ->
  snd (Adapter.watchdog h a) = [Adapter.Session object Adapter.Stop].
Proof.
  intros Href Ht. unfold Adapter.watchdog. rewrite Ht. simpl.
  rewrite Href. reflexivity.
Qed.

(** C3, on the code.  After mounting, activation by the owner, the
    start of the session and ten seconds without a result, the expiry
    of the watchdog timer issues no command at all: the callback tests
    the [isListening] of the render in which the handlers were created,
    which is false.  No stop was requested for the running object 1,
    [onResult] was not called, and the adapter still shows the
    listening state. *)
Theorem C3_watchdog_expiry_requests_no_stop :
  List.map snd (Adapter.trace true Adapter.initial silentSession)
    = [ [Adapter.Session 0 Adapter.Stop; Adapter.Session 0 Adapter.Stop];
        [Adapter.Session 0 Adapter.Abort; Adapter.Session 1 Adapter.Start];
        [];
        [] ] /\
  List.filter Adapter.is_result
    (Adapter.issued true Adapter.initial silentSession) = [] /\
  Adapter.isListening (Adapter.final true Adapter.initial silentSession)
    = true /\
  Adapter.recognitionRef (Adapter.final true Adapter.initial silentSession)
    = Some 1%nat.
Proof. vm_compute. repeat split. Qed.

(** Only the end of the session, reported by the browser, returns the
    control to the non-listening state. *)
Example silentSession_ends_with_onend :
  Adapter.isListening
    (Adapter.final true Adapter.initial
       (silentSession ++ [Adapter.BrowserEnd 1])) = false.
Proof. vm_compute. reflexivity. Qed.

(** * Further properties of the page *)

Lemma run_snoc (es : list Event) (e : Event) :
  run (es ++ [e]) = step (run es) e.
Proof. unfold run. now rewrite fold_left_app. Qed.

(** Induction over the runs of the page machine. *)
Lemma run_invariant (I : World -> Prop) :
  I initialWorld -> (forall w e, I w -> I (step w e)) -> forall es, I (run es).
Proof.
  intros Hinit Hstep es. induction es as [|e es IH] using rev_ind.
  - exact Hinit.
  - rewrite run_snoc. now apply Hstep.
Qed.

Lemma deliver_formData (slot : FileSlot) (cs : list DropZone.Call) (p : Page) :
  formData (fst (deliver slot cs p)) = formData p /\
  currentSpeechField (fst (deliver slot cs p)) = currentSpeechField p /\
  isSubmitting (fst (deliver slot cs p)) = isSubmitting p.
Proof.
  unfold deliver. generalize (@nil Effect). revert p.
  induction cs as [|[file] cs IH]; intros p tr; [simpl; auto|].
  exact (IH (with_files p (set_file (files p) slot (Some file)))
            (tr ++ [ShowToast (toast_fileUploaded slot file)])).
Qed.

(** What a zone event can do to the page: nothing, or store one file
    in the zone's own slot. *)
Lemma zone_event_page (slot : FileSlot)
  (h : DropZone.State -> DropZone.State * list DropZone.Call) (w : World) :
  formData (page (zone_event slot h w)) = formData (page w) /\
  currentSpeechField (page (zone_event slot h w)) = currentSpeechField (page w) /\
  isSubmitting (page (zone_event slot h w)) = isSubmitting (page w) /\
  awaiting (zone_event slot h w) = awaiting w.
Proof.
  unfold zone_event. destruct (h (zones w slot)) as [z' cs].
  pose proof (deliver_formData slot cs (page w)) as (H1 & H2 & H3).
  destruct (deliver slot cs (page w)) as [p' tr]. simpl in *. auto.
Qed.

Lemma field_key_formKeys (f : FieldId) : field_key f ∈ formKeys.
Proof.
  unfold formKeys. apply elem_of_list_to_set. rewrite requiredFields_keys.
  apply list_elem_of_fmap_2. destruct f; apply list_elem_of_In; simpl; tauto.
Qed.

Lemma dom_emptyFormData : dom emptyFormData = formKeys.
Proof.
  unfold emptyFormData, formKeys. rewrite dom_list_to_map_L. reflexivity.
Qed.

Lemma dom_insert_field (f : FieldId) (v : string) (fd : gmap string string) :
  dom fd = formKeys -> dom (<[field_key f := v]> fd) = formKeys.
Proof.
  intros H. rewrite dom_insert_L, H.
  apply subseteq_union_1_L, singleton_subseteq_l, field_key_formKeys.
Qed.

(** X1.  In every reachable page state the property names of
    [formData] are exactly the thirteen names of the initial literal:
    no handler adds a name or drops one. *)
Theorem formData_keeps_its_thirteen_keys (p : Page) :
  reachable p ->
  dom (formData p) = formKeys /\ size (formData p) = 13%nat.
Proof.
  intros [es <-].
  assert (H : dom (formData (page (run es))) = formKeys).
  { apply (run_invariant (fun w => dom (formData (page w)) = formKeys)).
    - exact dom_emptyFormData.
    - intros w e Hw.
      destruct e as [f v|f|f t|slot l|slot l|slot|slot|slot| |o];
        try (unfold step;
             match goal with
             | |- context [zone_event ?s ?h w] =>
                 destruct (zone_event_page s h w) as [-> _]; exact Hw
             end).
      + simpl. now apply dom_insert_field.
      + simpl. destruct (hasMicrophone f); exact Hw.
      + simpl. destruct (hasMicrophone f); [|exact Hw]. simpl.
        now apply dom_insert_field.
      + simpl. destruct (isSubmitting (page w)); [exact Hw|].
        unfold handleSubmit_begin.
        destruct (validateForm (page w)) as [[] tr]; simpl; exact Hw.
      + simpl. destruct (awaiting w); [exact Hw|]. destruct o; simpl; [|exact Hw].
        exact dom_emptyFormData. }
  split; [exact H|].
  rewrite <- size_dom, H. vm_compute. reflexivity.
Qed.

Lemma formData_keeps_its_thirteen_keys_witness :
  dom (formData filledPage) = formKeys /\ size (formData filledPage) = 13%nat.
Proof.
  apply formData_keeps_its_thirteen_keys.
  now exists (typedEverything ++ droppedEverything).
Defined.

(** X2.  Typing into one field changes that field only: every other
    field reads as before, and the files, the dictation target and the
    submitting flag are untouched. *)
Theorem typing_changes_one_field (f : FieldId) (v : string) (p : Page) :
  (forall g, g <> f -> readField g (onChange f v p) = readField g p) /\
  files (onChange f v p) = files p /\
  currentSpeechField (onChange f v p) = currentSpeechField p /\
  isSubmitting (onChange f v p) = isSubmitting p.
Proof.
  split; [|auto]. intros g Hg. apply readField_onChange_other. congruence.
Qed.

Lemma typing_changes_one_field_witness :
  readField City (onChange State "Goa" fieldsOnlyPage) = Some "Pune".
Proof.
  destruct (typing_changes_one_field State "Goa" fieldsOnlyPage) as [Hother _].
  rewrite (Hother City); [vm_compute; reflexivity | discriminate].
Defined.

Lemma not_str_false_filled (p : Page) (f : FieldId) :
  Js.not_str (formData p !! field_key f) = false -> fieldFilled p f.
Proof.
  unfold fieldFilled, readField. destruct (formData p !! field_key f) as [v|];
    simpl; [|discriminate].
  intros H. exists v. split; [reflexivity|]. now apply bool_decide_eq_false in H.
Qed.

(** X3.  [validateForm] accepts a page exactly when each of the
    thirteen fields holds a non-empty string and each of the four slots
    holds a file; it then shows nothing.  Nothing is trimmed: a field
    holding blanks only counts as filled. *)
Theorem validateForm_accepts_exactly_complete_pages (p : Page) :
  (fst (validateForm p) = true <-> complete p) /\
  (fst (validateForm p) = true -> snd (validateForm p) = []) /\
  (complete p -> forall f, complete (onChange f "  " p)).
Proof.
  split; [split|split].
  - unfold validateForm.
    destruct (0 <? length (missingFields (formData p)))%nat eqn:Ef;
      [discriminate|].
    destruct (0 <? length (missingFiles (files p)))%nat eqn:Es;
      [discriminate|].
    intros _. apply length_pos_iff in Ef, Es.
    rewrite missingFields_nil in Ef. rewrite missingFiles_nil in Es. split.
    + intros f. now apply not_str_false_filled.
    + intros s. specialize (Es s).
      destruct (get_file (files p) s); [eauto | discriminate Es].
  - intros Hc. now rewrite (complete_validates p Hc).
  - unfold validateForm.
    destruct (0 <? length (missingFields (formData p)))%nat; [discriminate|].
    destruct (0 <? length (missingFiles (files p)))%nat; [discriminate|].
    reflexivity.
  - intros [Hf Hs] f. split; [|exact Hs].
    intros g. destruct (decide (g = f)) as [->|Hne].
    + exists (typedValue f "  "). split; [apply readField_onChange|].
      destruct f; discriminate.
    + destruct (Hf g) as (v & Hv & Hnonempty). exists v. split; [|exact Hnonempty].
      rewrite readField_onChange_other; [exact Hv | congruence].
Qed.

Lemma validateForm_accepts_exactly_complete_pages_witness :
  fst (validateForm filledPage) = true /\
  complete (onChange FullName "  " filledPage).
Proof.
  destruct (validateForm_accepts_exactly_complete_pages filledPage)
    as ([_ Hacc] & _ & Hblank).
  split; [apply Hacc, filledPage_complete|].
  apply Hblank, filledPage_complete.
Defined.

(** X4.  A dictation result for field [f] stores the dictated value in
    [f] and clears the dictation target, whichever field was the
    target: no field is active afterwards.  The other fields, the files
    and the submitting flag are untouched. *)
Theorem dictation_result_clears_any_target (f : FieldId) (r : string) (p : Page) :
  readField f (onResult f r p) = Some (dictatedValue f r) /\
  currentSpeechField (onResult f r p) = None /\
  (forall g, isActive g (onResult f r p) = false) /\
  (forall g, g <> f -> readField g (onResult f r p) = readField g p) /\
  files (onResult f r p) = files p /\
  isSubmitting (onResult f r p) = isSubmitting p.
Proof.
  split; [apply readField_onResult|]. split; [reflexivity|].
  split; [intros g; reflexivity|]. split; [|auto].
  intros g Hg. unfold readField, onResult, handleSpeechResult, handleInputChange.
  simpl. apply lookup_insert_ne. intros H. apply Hg. symmetry.
  now apply field_key_inj.
Qed.

Lemma dictation_result_clears_any_target_witness :
  let p := onToggle City fieldsOnlyPage in
  isActive City p = true /\
  isActive City (onResult State "Goa" p) = false /\
  readField City (onResult State "Goa" p) = Some "Pune".
Proof.
  intros p.
  destruct (dictation_result_clears_any_target State "Goa" p)
    as (_ & _ & Hnone & Hother & _).
  split; [vm_compute; reflexivity|]. split; [apply Hnone|].
  rewrite (Hother City); [vm_compute; reflexivity | discriminate].
Defined.

Lemma stripNonDigits_allDigits (s : string) : allDigits (Js.stripNonDigits s) = true.
Proof.
  induction s as [|c s IH]; simpl; [reflexivity|].
  destruct (Js.is_digit c) eqn:E; simpl; [now rewrite E|exact IH].
Qed.

Lemma stripNonDigits_fixes_digits (s : string) :
  allDigits s = true -> Js.stripNonDigits s = s.
Proof.
  induction s as [|c s IH]; simpl; [reflexivity|].
  intros H. apply andb_true_iff in H as [Hc Hs]. rewrite Hc. f_equal. auto.
Qed.

Lemma stripNonDigits_length (s : string) :
  (String.length (Js.stripNonDigits s) <= String.length s)%nat.
Proof.
  induction s as [|c s IH]; simpl; [lia|].
  destruct (Js.is_digit c); simpl; lia.
Qed.

Lemma stripNonDigits_no_digit (s : string) :
  hasDigit s = false -> Js.stripNonDigits s = "".
Proof.
  induction s as [|c s IH]; simpl; [reflexivity|].
  intros H. apply orb_false_iff in H as [Hc Hs]. rewrite Hc. auto.
Qed.

Lemma dictatedValue_digitField (f : FieldId) (r : string) :
  In f digitFields -> dictatedValue f r = Js.stripNonDigits r.
Proof. simpl. intuition subst; reflexivity. Qed.

(** X5.  After a dictation into one of the five digit fields the field
    holds digits only, no more characters than the transcript had, and
    dictating the stored value again stores it unchanged. *)
Theorem dictated_digit_field_holds_digits_only
  (f : FieldId) (r : string) (p : Page) :
  In f digitFields ->
  exists v,
    readField f (onResult f r p) = Some v /\
    allDigits v = true /\
    (String.length v <= String.length r)%nat /\
    readField f (onResult f v (onResult f r p)) = Some v.
Proof.
  intros Hin. exists (Js.stripNonDigits r).
  rewrite !readField_onResult, !dictatedValue_digitField by exact Hin.
  split; [reflexivity|]. split; [apply stripNonDigits_allDigits|].
  split; [apply stripNonDigits_length|].
  f_equal. apply stripNonDigits_fixes_digits, stripNonDigits_allDigits.
Qed.

Lemma dictated_digit_field_holds_digits_only_witness :
  exists v,
    readField PinCode (onResult PinCode "four 1 1, 0 0 1" initialPage) = Some v /\
    allDigits v = true.
Proof.
  destruct (dictated_digit_field_holds_digits_only
              PinCode "four 1 1, 0 0 1" initialPage) as (v & Hv & Hd & _).
  - simpl. tauto.
  - exists v. split; assumption.
Defined.

(** X6.  A transcript without any digit, dictated into one of the five
    digit fields, leaves that field empty, whatever it held before;
    [validateForm] then rejects the page with the missing-fields toast. *)
Theorem digitless_dictation_empties_the_field
  (f : FieldId) (r : string) (p : Page) :
  In f digitFields -> hasDigit r = false ->
  readField f (onResult f r p) = Some "" /\
  validateForm (onResult f r p) = (false, [ShowToast toast_missingFields]).
Proof.
  intros Hin Hno.
  assert (H : readField f (onResult f r p) = Some "").
  { rewrite readField_onResult, dictatedValue_digitField by exact Hin.
    f_equal. now apply stripNonDigits_no_digit. }
  split; [exact H|].
  apply (validateForm_fields _ f). now apply fieldEmpty_not_str.
Qed.

Lemma digitless_dictation_empties_the_field_witness :
  readField MobileNumber (onResult MobileNumber "nine eight seven" filledPage)
    = Some "" /\
  validateForm (onResult MobileNumber "nine eight seven" filledPage)
    = (false, [ShowToast toast_missingFields]).
Proof.
  apply digitless_dictation_empties_the_field.
  - simpl. tauto.
  - vm_compute. reflexivity.
Defined.

(** ** Submission in the page machine *)

Lemma step_singleFlight (w : World) (e : Event) :
  singleFlight w -> singleFlight (step w e).
Proof.
  intros Hw.
  destruct e as [f v|f|f t|slot l|slot l|slot|slot|slot| |o];
    try (unfold step, singleFlight;
         match goal with
         | |- context [zone_event ?s ?h w] =>
             destruct (zone_event_page s h w) as (_ & _ & -> & ->); exact Hw
         end).
  - exact Hw.
  - simpl. destruct (hasMicrophone f); exact Hw.
  - simpl. destruct (hasMicrophone f); exact Hw.
  - simpl. destruct (isSubmitting (page w)) eqn:Es; [exact Hw|].
    destruct Hw as [[Ht _] | [_ Ha]]; [congruence|].
    unfold handleSubmit_begin.
    destruct (validateForm (page w)) as [[] tr]; simpl.
    + left. rewrite Ha. auto.
    + right. auto.
  - simpl. destruct (awaiting w) as [|n] eqn:Ea; [exact Hw|].
    destruct Hw as [[_ Ha] | [_ Ha]]; [|congruence].
    right. destruct o; simpl; split; congruence.
Qed.

(** X7.  In every reachable state of the page the submitting flag is
    set exactly while one simulated call is awaited, and never more
    than one call is awaited: pressing submit while a call is pending
    starts nothing. *)
Theorem at_most_one_call_in_flight (es : list Event) :
  singleFlight (run es) /\
  (awaiting (run es) <= 1)%nat /\
  (isSubmitting (page (run es)) = true ->
   step (run es) SubmitPressed = run es).
Proof.
  assert (H : singleFlight (run es)).
  { apply (run_invariant singleFlight); [right; auto|].
    intros w e. apply step_singleFlight. }
  split; [exact H|]. split.
  - destruct H as [[_ ->] | [_ ->]]; lia.
  - intros Hs. simpl. now rewrite Hs.
Qed.

Lemma at_most_one_call_in_flight_witness :
  awaiting submittingWorld = 1%nat /\
  step submittingWorld SubmitPressed = submittingWorld.
Proof.
  destruct (at_most_one_call_in_flight
              (typedEverything ++ droppedEverything ++ [SubmitPressed]))
    as (_ & _ & Hagain).
  split; [vm_compute; reflexivity|].
  apply Hagain. vm_compute. reflexivity.
Defined.

(** X8.  The form stays editable while the call is awaited, and what is
    typed then shares the fate of the rest: when the call resolves the
    field is reset to the empty string like all others, when it throws
    the field keeps the typed value. *)
Theorem edits_during_the_wait (w : World) (f : FieldId) (v : string) :
  (0 < awaiting w)%nat ->
  readField f (page (step w (Typed f v))) = Some (typedValue f v) /\
  readField f (page (step (step w (Typed f v)) (CallSettled Resolves)))
    = Some "" /\
  readField f (page (step (step w (Typed f v)) (CallSettled Rejects)))
    = Some (typedValue f v).
Proof.
  intros Hw. split; [apply readField_onChange|].
  simpl. destruct (awaiting w) as [|n]; [lia|]. simpl. split.
  - now apply emptyFormData_read.
  - apply readField_onChange.
Qed.

Lemma edits_during_the_wait_witness :
  readField City (page (step (step submittingWorld (Typed City "Nashik"))
                          (CallSettled Resolves))) = Some "" /\
  readField City (page (step (step submittingWorld (Typed City "Nashik"))
                          (CallSettled Rejects))) = Some "Nashik".
Proof.
  destruct (edits_during_the_wait submittingWorld City "Nashik")
    as (_ & Hres & Hrej).
  - vm_compute. lia.
  - split; [exact Hres | exact Hrej].
Defined.

(** X9.  Once a complete form has been submitted with success, the
    page is empty again: pressing submit at once is blocked with the
    missing-fields toast.  The reset does not touch the dictation
    target. *)
Theorem resubmission_after_success_is_blocked (p : Page) :
  complete p ->
  blockedWith toast_missingFields (fst (handleSubmit Resolves p)) /\
  currentSpeechField (fst (handleSubmit Resolves p)) = currentSpeechField p.
Proof.
  intros Hc. apply complete_validates in Hc.
  assert (E : handleSubmit Resolves p
    = (mkPage emptyFormData emptyFiles (currentSpeechField p) false,
       [SimulatedCall 2000; ShowToast toast_submitted])).
  { unfold handleSubmit, handleSubmit_begin. rewrite Hc. reflexivity. }
  rewrite E. simpl. split; [|reflexivity].
  apply blockedWith_intro, (validateForm_fields _ FullName). reflexivity.
Qed.

Lemma resubmission_after_success_is_blocked_witness :
  blockedWith toast_missingFields (fst (handleSubmit Resolves filledPage)).
Proof.
  apply (resubmission_after_success_is_blocked filledPage filledPage_complete).
Defined.

(** ** Files held by the page *)

Lemma deliver_keeps_files (slot s : FileSlot) (cs : list DropZone.Call) (p : Page) :
  is_Some (get_file (files p) s) ->
  is_Some (get_file (files (fst (deliver slot cs p))) s).
Proof.
  unfold deliver. generalize (@nil Effect). revert p.
  induction cs as [|[file] cs IH]; intros p tr Hs; [exact Hs|].
  apply (IH (with_files p (set_file (files p) slot (Some file)))
            (tr ++ [ShowToast (toast_fileUploaded slot file)])).
  simpl. destruct (decide (s = slot)) as [->|Hne].
  - rewrite get_set_file_same. eauto.
  - now rewrite get_set_file_other.
Qed.

(** X10.  A slot that holds a file keeps holding one through every
    event except the reset of a successful submission: the page offers
    no way to empty a slot, the remove affordance included. *)
Theorem held_files_are_never_dropped (w : World) (e : Event) (s : FileSlot) :
  e <> CallSettled Resolves ->
  is_Some (get_file (files (page w)) s) ->
  is_Some (get_file (files (page (step w e))) s).
Proof.
  intros He Hs.
  destruct e as [f v|f|f t|slot l|slot l|slot|slot|slot| |o];
    try (unfold step, zone_event;
         match goal with
         | |- context [?h (zones w ?sl)] =>
             destruct (h (zones w sl)) as [z' cs];
             pose proof (deliver_keeps_files sl s cs (page w) Hs) as Hk;
             destruct (deliver sl cs (page w)) as [p' tr]; exact Hk
         end).
  - exact Hs.
  - simpl. destruct (hasMicrophone f); exact Hs.
  - simpl. destruct (hasMicrophone f); exact Hs.
  - simpl. destruct (isSubmitting (page w)); [exact Hs|].
    unfold handleSubmit_begin.
    destruct (validateForm (page w)) as [[] tr]; exact Hs.
  - simpl. destruct (awaiting w); [exact Hs|].
    destruct o; [congruence | exact Hs].
Qed.

Lemma held_files_are_never_dropped_witness :
  is_Some (get_file
    (files (page (step (run (typedEverything ++ droppedEverything))
                    (RemovePressed PanCard)))) PanCard).
Proof.
  apply held_files_are_never_dropped.
  - discriminate.
  - vm_compute. eauto.
Defined.

(** X11.  Pressing a microphone twice in a row restores the dictation
    target when it was that field or none; when another field was the
    target, the two presses leave no target at all. *)
Theorem double_toggle (f : FieldId) (p : Page) :
  (currentSpeechField p = None \/ isActive f p = true ->
   onToggle f (onToggle f p) = p) /\
  (forall g, g <> f -> isActive g p = true ->
   currentSpeechField (onToggle f (onToggle f p)) = None).
Proof.
  destruct p as [fd fs c sub]. unfold onToggle, isActive. simpl. split.
  - intros [-> | Hact].
    + simpl. case_bool_decide; [reflexivity | congruence].
    + rewrite Hact. simpl. apply bool_decide_eq_true in Hact. now subst.
  - intros g Hg Hact. apply bool_decide_eq_true in Hact. subst c.
    assert (Hne : Some (field_key g) <> Some (field_key f)).
    { intros [= H]. apply Hg. now apply field_key_inj. }
    repeat case_bool_decide; simpl in *; congruence.
Qed.

Lemma double_toggle_witness :
  onToggle City (onToggle City initialPage) = initialPage /\
  currentSpeechField
    (onToggle City (onToggle City (onToggle State initialPage))) = None.
Proof.
  split.
  - apply (double_toggle City initialPage). left. reflexivity.
  - apply (double_toggle City (onToggle State initialPage) ) with (g := State).
    + discriminate.
    + vm_compute. reflexivity.
Defined.

(** * Further properties of the drop zone *)

(** X12.  Choosing files in the browse dialog is forwarded like a drop
    of the same list: the first file goes to the selection callback and
    the page ends up the same.  A dialog closed without a file calls
    nothing, and the change handler leaves the zone's own state alone. *)
Theorem browse_forwards_like_drop (l : list File) (z : DropZone.State) :
  snd (DropZone.handleInputChange (Some l) z) = snd (DropZone.handleDrop l z) /\
  fst (DropZone.handleInputChange (Some l) z) = z /\
  DropZone.handleInputChange None z = (z, []) /\
  forall w slot,
    page (step w (Browsed slot (Some l))) = page (step w (Dropped slot l)) /\
    shown (step w (Browsed slot (Some l))) = shown (step w (Dropped slot l)).
Proof.
  destruct l as [|file rest].
  - repeat split; reflexivity.
  - repeat split; reflexivity.
Qed.

(** X13.  The zone events that carry no file (drag over, drag leave,
    remove, a drop or a selection with an empty list, a dialog closed
    with nothing) leave the page and what has been shown as they were. *)
Theorem fileless_zone_events_leave_the_page (w : World) (slot : FileSlot) (e : Event) :
  In e (filelessEvents slot) ->
  page (step w e) = page w /\
  shown (step w e) = shown w /\
  awaiting (step w e) = awaiting w.
Proof.
  simpl. intros [<- | [<- | [<- | [<- | [<- | [<- | []]]]]]];
    simpl; unfold zone_event; simpl;
    try (unfold DropZone.handleRemoveFile;
         destruct (DropZone.fileInputRef (zones w slot)); simpl);
    rewrite ?app_nil_r; destruct w; auto.
Qed.

Lemma fileless_zone_events_leave_the_page_witness :
  page (step (run (typedEverything ++ droppedEverything)) (Dropped PanCard []))
  = filledPage.
Proof.
  apply (fileless_zone_events_leave_the_page
           (run (typedEverything ++ droppedEverything)) PanCard).
  simpl. tauto.
Defined.

(** * Further properties of the size formatting *)

Lemma floor_log_k_small (bytes : Z) :
  (0 < bytes < 1024)%Z -> DropZone.floor_log_k bytes = 0%Z.
Proof.
  intros Hb. destruct (floor_log_k_spec bytes ltac:(lia)) as (H0 & Hlo & _).
  destruct (Z_lt_le_dec (DropZone.floor_log_k bytes) 1) as [H|H]; [lia|].
  exfalso.
  assert (1024 ^ 1 <= 1024 ^ DropZone.floor_log_k bytes)%Z
    by (apply Z.pow_le_mono_r; lia).
  lia.
Qed.

(** X14.  A size below 1024 bytes is shown as the plain integer
    followed by "Bytes", with no decimals. *)
Theorem sizes_below_1024_are_plain_bytes (bytes : Z) :
  (0 < bytes < 1024)%Z ->
  DropZone.formatFileSize bytes = pretty bytes +:+ " Bytes".
Proof.
  intros Hb. unfold DropZone.formatFileSize.
  destruct (bytes =? 0)%Z eqn:E0; [apply Z.eqb_eq in E0; lia|].
  destruct (bytes <? 0)%Z eqn:E1; [apply Z.ltb_lt in E1; lia|].
  rewrite (floor_log_k_small bytes Hb).
  change (DropZone.k ^ 0)%Z with 1%Z. change (DropZone.size_name 0) with "Bytes".
  assert (Hn : DropZone.toFixed2 bytes 1 = (100 * bytes)%Z).
  { unfold DropZone.toFixed2. symmetry.
    apply (Z.div_unique_pos _ _ _ 1%Z); lia. }
  rewrite Hn. unfold DropZone.show_hundredths.
  assert (Hq : (100 * bytes / 100 = bytes)%Z)
    by (rewrite Z.mul_comm; apply Z.div_mul; lia).
  assert (Hr : (100 * bytes mod 100 = 0)%Z)
    by (rewrite Z.mul_comm; apply Z.mod_mul; lia).
  rewrite Hq, Hr. reflexivity.
Qed.

Lemma sizes_below_1024_are_plain_bytes_witness :
  DropZone.formatFileSize 1023 = pretty 1023%Z +:+ " Bytes".
Proof. apply sizes_below_1024_are_plain_bytes. lia. Defined.

(** X15.  For every size from one byte up to, but excluding, 1024^4
    bytes the number shown is the size divided by the chosen power of
    1024, rounded to the nearest hundredth, and lies between 1 and 1024
    inclusive; 1024 is reached by rounding up just below the next unit,
    as for 1048575 bytes, shown as 1024 KB. *)
Theorem shown_number_is_between_1_and_1024 (bytes : Z) :
  (0 < bytes < 1024 ^ 4)%Z ->
  exists n,
    (100 <= n <= 102400)%Z /\
    (2 * Z.abs (100 * bytes - n * 1024 ^ DropZone.floor_log_k bytes)
       <= 1024 ^ DropZone.floor_log_k bytes)%Z /\
    DropZone.formatFileSize bytes
      = DropZone.show_hundredths n +:+ " "
          +:+ DropZone.size_name (DropZone.floor_log_k bytes).
Proof.
  intros [Hb _]. destruct (floor_log_k_spec bytes ltac:(lia)) as (H0 & Hlo & Hhi).
  set (i := DropZone.floor_log_k bytes) in *.
  assert (Hd : (0 < 1024 ^ i)%Z) by (apply Z.pow_pos_nonneg; lia).
  rewrite Z.pow_add_r in Hhi by lia. change (1024 ^ 1)%Z with 1024%Z in Hhi.
  exists (DropZone.toFixed2 bytes (1024 ^ i)). split.
  - unfold DropZone.toFixed2. set (d := (1024 ^ i)%Z) in *. split.
    + apply Z.div_le_lower_bound; lia.
    + assert ((200 * bytes + d) / (2 * d) < 102401)%Z; [|lia].
      apply Z.div_lt_upper_bound; lia.
  - split; [now apply toFixed2_nearest|].
    unfold DropZone.formatFileSize.
    destruct (bytes =? 0)%Z eqn:E0; [apply Z.eqb_eq in E0; lia|].
    destruct (bytes <? 0)%Z eqn:E1; [apply Z.ltb_lt in E1; lia|].
    reflexivity.
Qed.

Lemma shown_number_is_between_1_and_1024_witness :
  DropZone.formatFileSize 1048575 = "1024 KB" /\
  exists n,
    (100 <= n <= 102400)%Z /\
    DropZone.formatFileSize 1048575
      = DropZone.show_hundredths n +:+ " "
          +:+ DropZone.size_name (DropZone.floor_log_k 1048575).
Proof.
  split; [vm_compute; reflexivity|].
  destruct (shown_number_is_between_1_and_1024 1048575) as (n & Hn & _ & Hf);
    [split; [lia | reflexivity]|].
  exists n. split; [exact Hn | exact Hf].
Defined.

(** X16.  From 1024^4 bytes on, the index computed from the logarithm
    is past the end of the four-entry table, and the result ends in
    "undefined" in place of a unit. *)
Theorem sizes_from_one_tebibyte_have_no_unit (bytes : Z) :
  (1024 ^ 4 <= bytes)%Z ->
  DropZone.sizes !! Z.to_nat (DropZone.floor_log_k bytes) = None /\
  exists n,
    DropZone.formatFileSize bytes
      = DropZone.show_hundredths n +:+ " undefined".
Proof.
  intros Hb.
  assert (Hpos : (0 < bytes)%Z).
  { assert (0 < 1024 ^ 4)%Z by (apply Z.pow_pos_nonneg; lia). lia. }
  destruct (floor_log_k_spec bytes ltac:(lia)) as (H0 & _ & Hhi).
  set (i := DropZone.floor_log_k bytes) in *.
  assert (Hi : (4 <= i)%Z).
  { destruct (Z_lt_le_dec i 4) as [H|H]; [|exact H]. exfalso.
    assert (1024 ^ (i + 1) <= 1024 ^ 4)%Z by (apply Z.pow_le_mono_r; lia).
    lia. }
  assert (Hnone : DropZone.sizes !! Z.to_nat i = None).
  { apply lookup_ge_None. simpl. lia. }
  split; [exact Hnone|].
  exists (DropZone.toFixed2 bytes (1024 ^ i)).
  unfold DropZone.formatFileSize.
  destruct (bytes =? 0)%Z eqn:E0; [apply Z.eqb_eq in E0; lia|].
  destruct (bytes <? 0)%Z eqn:E1; [apply Z.ltb_lt in E1; lia|].
  fold i. unfold DropZone.size_name. rewrite Hnone. reflexivity.
Qed.

Lemma sizes_from_one_tebibyte_have_no_unit_witness :
  exists n,
    DropZone.formatFileSize 5497558138880
      = DropZone.show_hundredths n +:+ " undefined".
Proof.
  apply (sizes_from_one_tebibyte_have_no_unit 5497558138880). vm_compute.
  discriminate.
Defined.

(** * Further properties of the adapter *)

Lemma issued_cons (capable : bool) (a : Adapter.State) (e : Adapter.Event)
  (es : list Adapter.Event) :
  Adapter.issued capable a (e :: es)
  = snd (Adapter.step capable a e)
    ++ Adapter.issued capable (fst (Adapter.step capable a e)) es.
Proof. reflexivity. Qed.

Lemma final_cons (capable : bool) (a : Adapter.State) (e : Adapter.Event)
  (es : list Adapter.Event) :
  Adapter.final capable a (e :: es)
  = Adapter.final capable (fst (Adapter.step capable a e)) es.
Proof. reflexivity. Qed.

Lemma inert_step (a : Adapter.State) (e : Adapter.Event) :
  inert a ->
  snd (Adapter.step false a e) = [] /\ inert (fst (Adapter.step false a e)).
Proof.
  intros (Hr & Ht & Hc & Hti & Hl & Hs). destruct a as [l s r t c ti no nt d].
  simpl in *. subst.
  destruct e as [ch act thr|o|o tr|o err|o|h|]; simpl;
    unfold Adapter.render, Adapter.commit, Adapter.cleanup, Adapter.setup,
      Adapter.activation, Adapter.clearPending, Adapter.onstart,
      Adapter.onresult, Adapter.onerror, Adapter.onend, Adapter.watchdog;
    simpl; rewrite ?lookup_empty; simpl;
    repeat (destruct ch; simpl);
    repeat case_bool_decide; simpl;
    repeat case_bool_decide; simpl;
    (split; [reflexivity | repeat split; reflexivity]).
Qed.

(** X17.  In a browser without speech recognition the adapter never
    calls the recognition API, never reports a result, never shows a
    toast and never enters the listening or the supported state,
    whatever the owner and the environment do. *)
Theorem unsupported_adapter_does_nothing (es : list Adapter.Event) :
  Adapter.issued false Adapter.initial es = [] /\
  Adapter.isListening (Adapter.final false Adapter.initial es) = false /\
  Adapter.isSupported (Adapter.final false Adapter.initial es) = false /\
  Adapter.recognitionRef (Adapter.final false Adapter.initial es) = None.
Proof.
  assert (H : forall a, inert a ->
            Adapter.issued false a es = [] /\ inert (Adapter.final false a es)).
  { induction es as [|e es IH]; intros a Ha; [split; [reflexivity | exact Ha]|].
    destruct (inert_step a e Ha) as [Hout Hnext].
    rewrite issued_cons, final_cons, Hout. simpl. now apply IH. }
  destruct (H Adapter.initial) as (Hout & Hr & _ & _ & _ & Hl & Hs).
  { repeat split; reflexivity. }
  auto.
Qed.

Lemma filter_result_app (xs ys : list Adapter.Out) :
  List.filter Adapter.is_result xs = [] ->
  List.filter Adapter.is_result ys = [] ->
  List.filter Adapter.is_result (xs ++ ys) = [].
Proof. intros Hx Hy. now rewrite List.filter_app, Hx, Hy. Qed.

Lemma cleanup_no_result (a : Adapter.State) :
  List.filter Adapter.is_result (snd (Adapter.cleanup a)) = [].
Proof. unfold Adapter.cleanup. simpl. destruct (Adapter.recognitionRef a); reflexivity. Qed.

Lemma activation_no_result (active supported thr : bool) (a : Adapter.State) :
  List.filter Adapter.is_result (snd (Adapter.activation active supported thr a)) = [].
Proof.
  unfold Adapter.activation. destruct (Adapter.recognitionRef a); [|reflexivity].
  destruct active, supported, thr; reflexivity.
Qed.

Lemma commit_no_result (capable ch active thr : bool) (a : Adapter.State) :
  List.filter Adapter.is_result (snd (Adapter.commit capable ch active thr a)) = [].
Proof.
  unfold Adapter.commit.
  destruct ch.
  - pose proof (cleanup_no_result a) as Hc.
    destruct (Adapter.cleanup a) as [a0 o0]. simpl in Hc.
    case_bool_decide.
    + simpl. now rewrite app_nil_r.
    + match goal with
      | |- context [Adapter.activation ?x ?y ?z ?u] =>
          pose proof (activation_no_result x y z u) as Ha;
          destruct (Adapter.activation x y z u) as [a2 o2]
      end.
      simpl in *. now apply filter_result_app.
  - case_bool_decide; [reflexivity|].
    match goal with
    | |- context [Adapter.activation ?x ?y ?z ?u] =>
        pose proof (activation_no_result x y z u) as Ha;
        destruct (Adapter.activation x y z u) as [a2 o2]
    end.
    simpl in *. exact Ha.
Qed.

Lemma render_no_result (capable ch active thr : bool) (a : Adapter.State) :
  List.filter Adapter.is_result (snd (Adapter.render capable ch active thr a)) = [].
Proof.
  unfold Adapter.render.
  pose proof (commit_no_result capable ch active thr a) as H1.
  destruct (Adapter.commit capable ch active thr a) as [a1 o1].
  pose proof (commit_no_result capable false active thr a1) as H2.
  destruct (Adapter.commit capable false active thr a1) as [a2 o2].
  simpl in *. now apply filter_result_app.
Qed.

Lemma step_no_result (capable : bool) (a : Adapter.State) (e : Adapter.Event) :
  notBrowserResult e = true ->
  List.filter Adapter.is_result (snd (Adapter.step capable a e)) = [].
Proof.
  destruct e as [ch act thr|o|o tr|o err|o|h|]; simpl; intros He;
    try discriminate He.
  - apply render_no_result.
  - unfold Adapter.onstart.
    destruct (Adapter.closures a !! o : option bool); reflexivity.
  - unfold Adapter.onerror. destruct (Adapter.closures a !! o); reflexivity.
  - unfold Adapter.onend. destruct (Adapter.closures a !! o); reflexivity.
  - unfold Adapter.watchdog.
    destruct (Adapter.timers a !! h : option bool) as [[]|]; simpl;
      try reflexivity; destruct (Adapter.recognitionRef a); reflexivity.
  - apply cleanup_no_result.
Qed.

(** X18.  The adapter calls [onResult] from the [onresult] handler
    only: over any run that has no recognition result among its events
    (renders, starts, errors, ends, timer expiries, unmount), [onResult]
    is never called. *)
Theorem no_result_without_recognition
  (capable : bool) (es : list Adapter.Event) (a : Adapter.State) :
  forallb notBrowserResult es = true ->
  List.filter Adapter.is_result (Adapter.issued capable a es) = [].
Proof.
  revert a. induction es as [|e es IH]; intros a Hes; [reflexivity|].
  simpl in Hes. apply andb_true_iff in Hes as [He Hes].
  rewrite issued_cons. apply filter_result_app.
  - now apply step_no_result.
  - now apply IH.
Qed.

Lemma no_result_without_recognition_witness :
  List.filter Adapter.is_result
    (Adapter.issued true Adapter.initial
       (silentSession ++ [Adapter.BrowserError 1 "no-speech"; Adapter.Unmount]))
  = [].
Proof. apply no_result_without_recognition. reflexivity. Defined.

Lemma activation_start (active supported thr : bool) (a : Adapter.State) (o : nat) :
  In (Adapter.Session o Adapter.Start)
     (snd (Adapter.activation active supported thr a)) ->
  active = true /\ supported = true /\ Adapter.recognitionRef a = Some o.
Proof.
  unfold Adapter.activation. destruct (Adapter.recognitionRef a) as [object|];
    [|intros []].
  destruct active, supported, thr; simpl; intros H;
    repeat (destruct H as [H|H]; try discriminate H); try contradiction;
    injection H as ->; auto.
Qed.

Lemma cleanup_no_start (a : Adapter.State) (o : nat) :
  ~ In (Adapter.Session o Adapter.Start) (snd (Adapter.cleanup a)).
Proof.
  unfold Adapter.cleanup. simpl. destruct (Adapter.recognitionRef a); simpl;
    intros H; repeat (destruct H as [H|H]; try discriminate H); contradiction.
Qed.

Lemma commit_start (capable ch active thr : bool) (a : Adapter.State) (o : nat) :
  In (Adapter.Session o Adapter.Start)
     (snd (Adapter.commit capable ch active thr a)) ->
  active = true /\ Adapter.isSupported a = true.
Proof.
  unfold Adapter.commit. destruct ch.
  - pose proof (cleanup_no_start a o) as Hc.
    destruct (Adapter.cleanup a) as [a0 o0]. simpl in Hc.
    case_bool_decide; simpl.
    + rewrite app_nil_r. contradiction.
    + match goal with
      | |- context [Adapter.activation ?x ?y ?z ?u] =>
          pose proof (activation_start x y z u o) as Ha;
          destruct (Adapter.activation x y z u) as [a2 o2]
      end.
      simpl in *. intros Hin. apply in_app_or in Hin as [Hin|Hin];
        [contradiction|].
      destruct (Ha Hin) as (-> & -> & _). auto.
  - case_bool_decide; simpl; [intros []|].
    match goal with
    | |- context [Adapter.activation ?x ?y ?z ?u] =>
        pose proof (activation_start x y z u o) as Ha;
        destruct (Adapter.activation x y z u) as [a2 o2]
    end.
    simpl in *. intros Hin. destruct (Ha Hin) as (-> & -> & _). auto.
Qed.

(** X19.  The adapter asks a session to start only in a render in
    which the owner passes [isActive = true]: no browser event, timer
    expiry, unmount or inactive render ever starts one. *)
Theorem start_only_when_active
  (capable : bool) (a : Adapter.State) (e : Adapter.Event) (o : nat) :
  In (Adapter.Session o Adapter.Start) (snd (Adapter.step capable a e)) ->
  exists onResultChanged startThrows,
    e = Adapter.OwnerRender onResultChanged true startThrows.
Proof.
  destruct e as [ch act thr|ob|ob tr|ob err|ob|h|]; simpl.
  - unfold Adapter.render.
    pose proof (commit_start capable ch act thr a o) as H1.
    destruct (Adapter.commit capable ch act thr a) as [a1 o1].
    pose proof (commit_start capable false act thr a1 o) as H2.
    destruct (Adapter.commit capable false act thr a1) as [a2 o2].
    simpl in *. intros H. apply in_app_or in H as [H|H].
    + destruct (H1 H) as [-> _]. eauto.
    + destruct (H2 H) as [-> _]. eauto.
  - unfold Adapter.onstart.
    destruct (Adapter.closures a !! ob : option bool); intros [].
  - unfold Adapter.onresult. destruct (Adapter.closures a !! ob); simpl;
      intros H; repeat (destruct H as [H|H]; try discriminate H); contradiction.
  - unfold Adapter.onerror. destruct (Adapter.closures a !! ob); simpl;
      intros H; repeat (destruct H as [H|H]; try discriminate H); contradiction.
  - unfold Adapter.onend. destruct (Adapter.closures a !! ob); intros [].
  - unfold Adapter.watchdog.
    destruct (Adapter.timers a !! h : option bool) as [[]|]; simpl;
      try (intros []); destruct (Adapter.recognitionRef a); simpl;
      intros H; repeat (destruct H as [H|H]; try discriminate H); contradiction.
  - intros H. exfalso. exact (cleanup_no_start a o H).
Qed.

Lemma start_only_when_active_witness :
  exists onResultChanged startThrows,
    Adapter.OwnerRender true true false
    = Adapter.OwnerRender onResultChanged true startThrows.
Proof.
  apply (start_only_when_active true
           (Adapter.final true Adapter.initial
              [Adapter.OwnerRender true false false])
           (Adapter.OwnerRender true true false) 1).
  vm_compute. tauto.
Defined.

(** X20.  When the owner renders an adapter that is active and
    supported again with a new [onResult] and still active, the running
    recognition object is aborted and replaced by a new one that is not
    started; the adapter's listening flag is left as it was. *)
Theorem rerender_while_active_aborts_without_restart
  (a : Adapter.State) (object : nat) (startThrows : bool) :
  Adapter.recognitionRef a = Some object ->
  Adapter.isSupported a = true ->
  Adapter.lastDeps a = Some (true, true) ->
  snd (Adapter.render true true true startThrows a)
    = [Adapter.Session object Adapter.Abort] /\
  Adapter.recognitionRef (fst (Adapter.render true true true startThrows a))
    = Some (Adapter.nextObject a) /\
  Adapter.isListening (fst (Adapter.render true true true startThrows a))
    = Adapter.isListening a.
Proof.
  intros Hr Hs Hd. destruct a as [l s r t c ti no nt d]. simpl in *. subst.
  unfold Adapter.render, Adapter.commit, Adapter.cleanup, Adapter.setup,
    Adapter.clearPending. simpl.
  destruct t; simpl; auto.
Qed.

Lemma rerender_while_active_aborts_without_restart_witness :
  snd (Adapter.render true true true false listeningAdapter)
    = [Adapter.Session 1 Adapter.Abort] /\
  Adapter.isListening (fst (Adapter.render true true true false listeningAdapter))
    = true.
Proof.
  destruct (rerender_while_active_aborts_without_restart
              listeningAdapter 1 false) as (Hout & _ & Hl);
    try (vm_compute; reflexivity).
  split; [exact Hout|]. rewrite Hl. vm_compute. reflexivity.
Defined.

(** X21.  When the owner renders an active, supported adapter with a
    new [onResult] and [isActive = false], the running object is
    aborted, a new object is created and asked to stop, and the
    listening flag is cleared at once, without waiting for the end of
    the session. *)
Theorem deactivation_stops_at_once
  (a : Adapter.State) (object : nat) (startThrows : bool) :
  Adapter.recognitionRef a = Some object ->
  Adapter.isSupported a = true ->
  Adapter.lastDeps a = Some (true, true) ->
  snd (Adapter.render true true false startThrows a)
    = [ Adapter.Session object Adapter.Abort;
        Adapter.Session (Adapter.nextObject a) Adapter.Stop ] /\
  Adapter.isListening (fst (Adapter.render true true false startThrows a))
    = false.
Proof.
  intros Hr Hs Hd. destruct a as [l s r t c ti no nt d]. simpl in *. subst.
  unfold Adapter.render, Adapter.commit, Adapter.cleanup, Adapter.setup,
    Adapter.clearPending. simpl.
  destruct t; simpl; auto.
Qed.

Lemma deactivation_stops_at_once_witness :
  snd (Adapter.render true true false false listeningAdapter)
    = [Adapter.Session 1 Adapter.Abort; Adapter.Session 2 Adapter.Stop] /\
  Adapter.isListening (fst (Adapter.render true true false false listeningAdapter))
    = false.
Proof.
  destruct (deactivation_stops_at_once listeningAdapter 1 false)
    as (Hout & Hl); try (vm_compute; reflexivity).
  split; [exact Hout | exact Hl].
Defined.

(** X22.  The end of the session and the unmounting both cancel the
    timer that [onstart] armed: when that timer's time comes, nothing
    runs.  After the end of the session the adapter is not listening. *)
Theorem end_and_unmount_cancel_the_watchdog (a : Adapter.State) (object : nat) :
  is_Some (Adapter.closures a !! object) ->
  let started := fst (Adapter.onstart object a) in
  let ended := fst (Adapter.onend object started) in
  let unmounted := fst (Adapter.cleanup started) in
  Adapter.timers started !! Adapter.nextTimer a
    = Adapter.closures a !! object /\
  Adapter.watchdog (Adapter.nextTimer a) ended = (ended, []) /\
  Adapter.isListening ended = false /\
  Adapter.watchdog (Adapter.nextTimer a) unmounted = (unmounted, []).
Proof.
  intros [seen Hseen]. unfold Adapter.onstart. rewrite Hseen. simpl.
  split; [apply lookup_insert_eq|].
  unfold Adapter.onend, Adapter.cleanup, Adapter.clearPending. simpl.
  rewrite Hseen. simpl. unfold Adapter.watchdog. simpl.
  rewrite lookup_delete_eq. auto.
Qed.

Lemma end_and_unmount_cancel_the_watchdog_witness :
  let started := fst (Adapter.onstart 1 listeningAdapter) in
  let ended := fst (Adapter.onend 1 started) in
  Adapter.watchdog (Adapter.nextTimer listeningAdapter) ended = (ended, []).
Proof.
  apply (end_and_unmount_cancel_the_watchdog listeningAdapter 1).
  vm_compute. eauto.
Defined.
